(** * Inventory ledger of app.py: product registration, sales, purchases
      and the dashboard aggregates, as a shallow embedding.

    The three worksheets ("Productos", "Ventas", "Compras") are the state.
    Each page handler of app.py is a computation in a small state and
    exception monad over that state, so that the order of the writes
    ([set_with_dataframe]) relative to the points where Python raises is
    the one of the source.

    Numbers are integers: stock and quantities enter through
    [st.number_input(..., step=1)], and Python integers are unbounded, so
    a numeric cell carries a [Z].  In a frame as [load_data] returns it, a
    column whose cells are all numbers or empty is a float64 column (the
    empty rows of the sheet are read as NaN before they are dropped): its
    numbers are floats with an integer value, they print as floats, and a
    number written into the column is rounded to a float64.  A column with
    a text in it is an object column, whose numbers are Python integers.
    Decimal fractions are outside the model. *)

From Stdlib Require Import ZArith List Bool Ascii String Lia Permutation.
From Stdlib Require Import DecimalString.
From Stdlib Require Sorted OrderedTypeEx.
Import ListNotations.

Local Open Scope string_scope.
Local Open Scope Z_scope.
Local Open Scope list_scope.

(** ** Cells of a data frame *)

(** A cell read from a sheet is a number, a text, or missing (pandas' NaN). *)
Inductive cell : Type :=
| Num (z : Z)
| Text (s : string)
| NaN.

(** Python's [==] on cell values: a number and a text are never equal, and
    NaN is equal to nothing, itself included. *)
Definition cell_eqb (a b : cell) : bool :=
  match a, b with
  | Num x, Num y => x =? y
  | Text s, Text t => String.eqb s t
  | _, _ => false
  end.

(** The order in which pandas sorts group keys of mixed type: numbers
    first, then texts, missing values last. *)
Definition cell_leb (a b : cell) : bool :=
  match a, b with
  | Num x, Num y => x <=? y
  | Num _, _ => true
  | Text _, Num _ => false
  | Text s, Text t => String.leb s t
  | Text _, NaN => true
  | NaN, NaN => true
  | NaN, _ => false
  end.

(** ** Integers as float64 values *)

Module Float64.

(** The distance between neighbouring float64 values around [z]: 1 up to
    2^53, then doubling with each power of two. *)
Definition spacing (z : Z) : Z := 2 ^ Z.max 0 (Z.log2 (Z.abs z) - 52).

(** The float64 nearest to the integer [z], ties going to the even
    mantissa: what [float(z)] is, and what a float64 column keeps of an
    integer assigned to it. *)
Definition round (z : Z) : Z :=
  let u := spacing z in
  let n := z / u in
  let r := z mod u in
  if 2 * r <? u then n * u
  else if u <? 2 * r then (n + 1) * u
  else if Z.even n then n * u
  else (n + 1) * u.

Definition decimal (x : Z) : string := NilZero.string_of_int (Z.to_int x).

(** The multiple of [10 ^ k] next to [x] that reads back as [x], if there
    is one; the nearer one if both do. *)
Definition shortest_at (x k : Z) : option Z :=
  let p := 10 ^ k in
  let lo := (x / p) * p in
  let hi := lo + p in
  match round lo =? x, round hi =? x with
  | true, true =>
      Some (if x - lo <? hi - x then lo
            else if hi - x <? x - lo then hi
            else if Z.even (x / p) then lo else hi)
  | true, false => Some lo
  | false, true => Some hi
  | false, false => None
  end.

(** The decimal with the fewest significant digits that reads back as
    [x], trying [10 ^ k] for [k] downwards. *)
Fixpoint shortest (x : Z) (k : nat) : Z :=
  match shortest_at x (Z.of_nat k) with
  | Some c => c
  | None => match k with O => x | S k' => shortest x k' end
  end.

Fixpoint strip_zeros (s : string) : string :=
  match s with
  | EmptyString => EmptyString
  | String a s' =>
      match strip_zeros s' with
      | EmptyString => if Ascii.eqb a "0" then EmptyString else String a EmptyString
      | r => String a r
      end
  end.

(** [d.ddde+XX], for [x >= 10 ^ 16]. *)
Definition exponent_form (x : Z) : string :=
  let d := String.length (decimal x) in
  let c := decimal (shortest x (d - 1)) in
  let e := decimal (Z.of_nat (String.length c) - 1) in
  match strip_zeros c with
  | EmptyString => "0"
  | String a EmptyString => String a ("e+" ++ e)
  | String a rest => String a ("." ++ rest ++ "e+" ++ e)
  end.

(** [str(x)] for a float [x] of integer value [z]: ["7.0"] below
    [10 ^ 16], the shortest exponent form that reads back from there on. *)
Definition repr (z : Z) : string :=
  if Z.abs z <? 10 ^ 16 then decimal z ++ ".0"
  else if z <? 0 then "-" ++ exponent_form (- z)
  else exponent_form z.

End Float64.

(** ** The Python and pandas primitives the handlers call *)

Module Py.

Inductive exn : Type := ValueError | IndexError.

(** [str(x)] for a value of an object column, its numbers being Python
    integers. *)
Definition str (c : cell) : string :=
  match c with
  | Num z => NilZero.string_of_int (Z.to_int z)
  | Text s => s
  | NaN => "nan"
  end.

(** Truth value of a [str]: the empty string is false. *)
Definition truthy (s : string) : bool :=
  match s with EmptyString => false | String _ _ => true end.

(** [all(xs)] over the strings of a form. *)
Definition all (xs : list string) : bool := forallb truthy xs.

Definition is_space (a : ascii) : bool :=
  let n := nat_of_ascii a in
  (Nat.eqb n 32 || (Nat.leb 9 n && Nat.leb n 13))%bool.

Fixpoint lstrip (s : string) : string :=
  match s with
  | String a s' => if is_space a then lstrip s' else s
  | EmptyString => EmptyString
  end.

Fixpoint rstrip (s : string) : string :=
  match s with
  | EmptyString => EmptyString
  | String a s' =>
      match rstrip s' with
      | EmptyString => if is_space a then EmptyString else String a EmptyString
      | r => String a r
      end
  end.

Definition strip (s : string) : string := lstrip (rstrip s).

Definition digit_of (a : ascii) : option Z :=
  let n := nat_of_ascii a in
  if (Nat.leb 48 n && Nat.leb n 57)%bool then Some (Z.of_nat n - 48) else None.

(** Decimal digits, with single underscores between digits when
    [underscores] is set, as [int] accepts them.  [prev] tells whether the
    previous character was a digit. *)
Fixpoint digits (underscores prev : bool) (acc : Z) (s : string) : option Z :=
  match s with
  | EmptyString => if prev then Some acc else None
  | String a s' =>
      match digit_of a with
      | Some d => digits underscores true (10 * acc + d) s'
      | None =>
          if (underscores && prev && Ascii.eqb a "_")%bool
          then digits underscores false acc s'
          else None
      end
  end.

Definition signed (underscores : bool) (s : string) : option Z :=
  match s with
  | String "-" s' => option_map Z.opp (digits underscores false 0 s')
  | String "+" s' => digits underscores false 0 s'
  | _ => digits underscores false 0 s
  end.

Fixpoint count_digits (s : string) : nat :=
  match s with
  | EmptyString => O
  | String a s' =>
      match digit_of a with
      | Some _ => S (count_digits s')
      | None => count_digits s'
      end
  end.

(** [sys.get_int_max_str_digits()], at its default. *)
Definition max_str_digits : nat := 4300.

(** [int(s)] for a [str] of ASCII characters: surrounding whitespace, an
    optional sign and decimal digits, no more of them than
    [max_str_digits]; [None] is [ValueError].  (Digits and spaces beyond
    ASCII, which [int] also reads, are not modelled: on a text with such
    characters [None] tells nothing.) *)
Definition int_of_str (s : string) : option Z :=
  if Nat.ltb max_str_digits (count_digits s) then None else signed true (strip s).

(** The text has ASCII characters only. *)
Fixpoint is_ascii (s : string) : bool :=
  match s with
  | EmptyString => true
  | String a s' => (Nat.ltb (nat_of_ascii a) 128 && is_ascii s')%bool
  end.

(** [int(x)] on a cell value, a number giving its integer value;
    [int(float('nan'))] raises [ValueError]. *)
Definition int (c : cell) : option Z :=
  match c with
  | Num z => Some z
  | Text s => int_of_str s
  | NaN => None
  end.

End Py.

Module Pd.

(** A column of numbers and empty cells only: float64 in the frame. *)
Definition is_float64 (col : list cell) : bool :=
  forallb (fun c => match c with Text _ => false | _ => true end) col.

(** [str(x)] for a value of a float64 column. *)
Definition str_float (c : cell) : string :=
  match c with
  | Num z => Float64.repr z
  | Text s => s
  | NaN => "nan"
  end.

(** [col.astype(str)] on a column of a frame as loaded. *)
Definition astype_str (col : list cell) : list string :=
  map (if is_float64 col then str_float else Py.str) col.

(** The number a text stands for, as [pd.to_numeric] reads it: integer
    literals only, in this model.  The other texts pandas reads as numbers
    (["3.0"], ["1e3"]) are not modelled, so that on a text cell that is no
    integer literal this tells nothing. *)
Definition number_of_str (s : string) : option Z := Py.signed false (Py.strip s).

(** [pd.to_numeric(col)] with the default [errors='raise']: a text that
    is not a number raises [ValueError]; a missing value stays missing. *)
Fixpoint to_numeric (col : list cell) : Py.exn + list (option Z) :=
  match col with
  | [] => inr []
  | c :: col' =>
      match c with
      | Text s =>
          match number_of_str s with
          | None => inl Py.ValueError
          | Some z =>
              match to_numeric col' with
              | inl e => inl e
              | inr r => inr (Some z :: r)
              end
          end
      | Num z =>
          match to_numeric col' with
          | inl e => inl e
          | inr r => inr (Some z :: r)
          end
      | NaN =>
          match to_numeric col' with
          | inl e => inl e
          | inr r => inr (None :: r)
          end
      end
  end.

(** One value under [pd.to_numeric(..., errors='coerce')]: what does not
    parse becomes missing. *)
Definition coerce (c : cell) : option Z :=
  match c with
  | Num z => Some z
  | Text s => number_of_str s
  | NaN => None
  end.

Definition to_numeric_coerce (col : list cell) : list (option Z) := map coerce col.

(** [Series.sum()]: missing values are skipped ([skipna=True]), and the
    sum of nothing is 0. *)
Fixpoint sum (col : list (option Z)) : Z :=
  match col with
  | [] => 0
  | Some z :: col' => z + sum col'
  | None :: col' => sum col'
  end.

(** [Series.fillna(0)]. *)
Definition fillna0 (col : list (option Z)) : list Z :=
  map (fun v => match v with Some z => z | None => 0 end) col.

(** The distinct keys of a column in order of first appearance, missing
    keys dropped: what [groupby] (with [dropna=True]) and [nunique] see. *)
Fixpoint unique (keys : list cell) : list cell :=
  match keys with
  | [] => []
  | NaN :: keys' => unique keys'
  | k :: keys' => k :: filter (fun k' => negb (cell_eqb k' k)) (unique keys')
  end.

Fixpoint insert_key (k : cell) (l : list cell) : list cell :=
  match l with
  | [] => [k]
  | k' :: l' => if cell_leb k k' then k :: l else k' :: insert_key k l'
  end.

(** [groupby] sorts the group keys ([sort=True]). *)
Definition sort_keys (l : list cell) : list cell := fold_right insert_key [] l.

(** [df.groupby(key)[value].sum()] over the two columns of a frame: one
    entry per distinct key, in key order, with the sum of its values. *)
Definition groupby_sum (keys : list cell) (values : list (option Z)) : list (cell * Z) :=
  let rows := combine keys values in
  map (fun k => (k, sum (map snd (filter (fun r => cell_eqb (fst r) k) rows))))
      (sort_keys (unique keys)).

Fixpoint insert_desc (x : cell * Z) (l : list (cell * Z)) : list (cell * Z) :=
  match l with
  | [] => [x]
  | y :: l' => if snd y <=? snd x then x :: l else y :: insert_desc x l'
  end.

(** Descending by value; among equal values the earlier entry stays first. *)
Definition sort_desc (s : list (cell * Z)) : list (cell * Z) := fold_right insert_desc [] s.

(** [Series.nlargest(n)] with the default [keep='first']. *)
Definition nlargest (n : nat) (s : list (cell * Z)) : list (cell * Z) :=
  firstn n (sort_desc s).

End Pd.

(** ** The worksheets *)

Module Producto.

(** A row of "Productos": ID_Producto, Nombre, Categoría, Presentación,
    Stock. *)
Record t : Type := mk {
  ID_Producto : cell;
  Nombre : cell;
  Categoria : cell;
  Presentacion : cell;
  Stock : cell
}.

Definition set_Stock (v : cell) (r : t) : t :=
  mk (ID_Producto r) (Nombre r) (Categoria r) (Presentacion r) v.

End Producto.

Module Movimiento.

(** A row of "Ventas" or of "Compras": Fecha, ID_Producto, Nombre,
    Cantidad, Presentación. *)
Record t : Type := mk {
  Fecha : cell;
  ID_Producto : cell;
  Nombre : cell;
  Cantidad : cell;
  Presentacion : cell
}.

End Movimiento.

(** The data rows of the three sheets, as [load_data] returns them (rows
    that are empty throughout already dropped).  A handler takes the
    frames as loaded and leaves the frames it writes; how the sheet types
    a written cell when it is read again (a text of digits comes back as a
    number) is outside the model. *)
Record worksheets : Type := mkSheets {
  Productos : list Producto.t;
  Ventas : list Movimiento.t;
  Compras : list Movimiento.t
}.

(** ** State and exception monad of a page run *)

Inductive result (A : Type) : Type :=
| Ret (a : A)
| Raise (e : Py.exn).
Arguments Ret {A} a.
Arguments Raise {A} e.

Definition M (A : Type) : Type := worksheets -> result A * worksheets.

Definition ret {A} (a : A) : M A := fun w => (Ret a, w).

Definition raise {A} (e : Py.exn) : M A := fun w => (Raise e, w).

Definition bind {A B} (m : M A) (k : A -> M B) : M B :=
  fun w =>
    match m w with
    | (Ret a, w') => k a w'
    | (Raise e, w') => (Raise e, w')
    end.

Notation "x <- m ;; k" := (bind m (fun x => k))
  (at level 61, m at next level, right associativity).
Notation "m ;; k" := (bind m (fun _ => k))
  (at level 61, right associativity).

(** [load_data(worksheets, name)], one per sheet since the rows differ. *)
Definition load_productos : M (list Producto.t) := fun w => (Ret (Productos w), w).
Definition load_ventas : M (list Movimiento.t) := fun w => (Ret (Ventas w), w).
Definition load_compras : M (list Movimiento.t) := fun w => (Ret (Compras w), w).

(** [set_with_dataframe(worksheets[name], df)]. *)
Definition set_productos (df : list Producto.t) : M unit :=
  fun w => (Ret tt, mkSheets df (Ventas w) (Compras w)).
Definition set_ventas (df : list Movimiento.t) : M unit :=
  fun w => (Ret tt, mkSheets (Productos w) df (Compras w)).
Definition set_compras (df : list Movimiento.t) : M unit :=
  fun w => (Ret tt, mkSheets (Productos w) (Ventas w) df).

(** [df.iloc[0]]: the first row, [IndexError] when there is none. *)
Definition iloc0 {A} (df : list A) : M A :=
  match df with
  | [] => raise Py.IndexError
  | r :: _ => ret r
  end.

(** [int(x)] as a step of a page run. *)
Definition int (c : cell) : M Z :=
  match Py.int c with
  | Some z => ret z
  | None => raise Py.ValueError
  end.

(** ** What a page reports *)

Inductive mensaje : Type :=
| MissingFieldError            (* st.warning("Todos los campos son obligatorios.") *)
| DuplicateIdError (id : string)   (* st.error("El ID ... ya existe ...") *)
| ProductoAnadido (nombre : string)
| InsufficientStockError (stock_actual : Z)  (* st.error("No hay suficiente stock ...") *)
| VentaRegistrada (cantidad : Z) (producto : cell) (nuevo_stock : Z)
| CompraRegistrada (cantidad : Z) (producto : cell) (nuevo_stock : Z)
| SinProductos.                (* st.warning("Primero debes registrar productos ...") *)

(** ** Page "Registro de Productos", form [form_nuevo_producto] *)

Definition nuevo_producto (id_producto nombre_producto categoria presentacion : string)
    (stock_inicial : Z) : Producto.t :=
  Producto.mk (Text id_producto) (Text nombre_producto) (Text categoria)
    (Text presentacion) (Num stock_inicial).

(** [id_producto in df_productos["ID_Producto"].astype(str).values] *)
Definition id_existe (id_producto : string) (df_productos : list Producto.t) : bool :=
  existsb (String.eqb id_producto)
    (Pd.astype_str (map Producto.ID_Producto df_productos)).

Definition form_nuevo_producto
    (id_producto nombre_producto categoria presentacion : string)
    (stock_inicial : Z) : M mensaje :=
  df_productos <- load_productos ;;
  if negb (Py.all [id_producto; nombre_producto; categoria; presentacion])
  then ret MissingFieldError
  else if id_existe id_producto df_productos
  then ret (DuplicateIdError id_producto)
  else
    let df_actualizado :=
      df_productos ++
      [nuevo_producto id_producto nombre_producto categoria presentacion stock_inicial] in
    set_productos df_actualizado ;;
    ret (ProductoAnadido nombre_producto).

(** ** Pages "Registro de Ventas" and "Registro de Compras" *)

(** The mask [df_productos["Nombre"] == producto_seleccionado]. *)
Definition es_seleccionado (producto_seleccionado : cell) (r : Producto.t) : bool :=
  cell_eqb (Producto.Nombre r) producto_seleccionado.

(** What the "Stock" column keeps of an integer assigned to it: the
    nearest float64 when the column is float64, the integer itself when it
    is an object column. *)
Definition stock_escrito (df_productos : list Producto.t) (nuevo_stock : Z) : Z :=
  if Pd.is_float64 (map Producto.Stock df_productos)
  then Float64.round nuevo_stock
  else nuevo_stock.

(** [df_productos.loc[df_productos["Nombre"] == producto_seleccionado, "Stock"] = nuevo_stock] *)
Definition loc_set_stock (producto_seleccionado : cell) (nuevo_stock : Z)
    (df_productos : list Producto.t) : list Producto.t :=
  map (fun r =>
         if es_seleccionado producto_seleccionado r
         then Producto.set_Stock (Num (stock_escrito df_productos nuevo_stock)) r
         else r)
      df_productos.

(** The row written to "Ventas" or "Compras". *)
Definition nuevo_movimiento (fecha : string) (producto_info : Producto.t)
    (cantidad : Z) : Movimiento.t :=
  Movimiento.mk (Text fecha) (Producto.ID_Producto producto_info)
    (Producto.Nombre producto_info) (Num cantidad)
    (Producto.Presentacion producto_info).

(** A run of the sales page with [form_venta] submitted; [fecha_venta] is
    the formatted [datetime.now()]. *)
Definition submit_venta (producto_seleccionado : cell) (cantidad_vendida : Z)
    (fecha_venta : string) : M mensaje :=
  df_productos <- load_productos ;;
  match df_productos with
  | [] => ret SinProductos
  | _ :: _ =>
      producto_info <- iloc0 (filter (es_seleccionado producto_seleccionado) df_productos) ;;
      stock_actual <- int (Producto.Stock producto_info) ;;
      if cantidad_vendida >? stock_actual
      then ret (InsufficientStockError stock_actual)
      else
        let nueva_venta := nuevo_movimiento fecha_venta producto_info cantidad_vendida in
        df_ventas_actual <- load_ventas ;;
        set_ventas (df_ventas_actual ++ [nueva_venta]) ;;
        let nuevo_stock := stock_actual - cantidad_vendida in
        set_productos (loc_set_stock producto_seleccionado nuevo_stock df_productos) ;;
        ret (VentaRegistrada cantidad_vendida producto_seleccionado nuevo_stock)
  end.

(** A run of the purchases page with [form_compra] submitted. *)
Definition submit_compra (producto_seleccionado : cell) (cantidad_comprada : Z)
    (fecha_compra : string) : M mensaje :=
  df_productos <- load_productos ;;
  match df_productos with
  | [] => ret SinProductos
  | _ :: _ =>
      producto_info <- iloc0 (filter (es_seleccionado producto_seleccionado) df_productos) ;;
      let nueva_compra := nuevo_movimiento fecha_compra producto_info cantidad_comprada in
      df_compras_actual <- load_compras ;;
      set_compras (df_compras_actual ++ [nueva_compra]) ;;
      stock_actual <- int (Producto.Stock producto_info) ;;
      let nuevo_stock := stock_actual + cantidad_comprada in
      set_productos (loc_set_stock producto_seleccionado nuevo_stock df_productos) ;;
      ret (CompraRegistrada cantidad_comprada producto_seleccionado nuevo_stock)
  end.

(** The two movement kinds of the ledger. *)
Inductive kind : Type := Sale | Purchase.

Definition record_movement (k : kind) (product_name : cell) (quantity : Z)
    (fecha : string) : M mensaje :=
  match k with
  | Sale => submit_venta product_name quantity fecha
  | Purchase => submit_compra product_name quantity fecha
  end.

(** The movement log a kind appends to. *)
Definition movement_log (k : kind) (w : worksheets) : list Movimiento.t :=
  match k with
  | Sale => Ventas w
  | Purchase => Compras w
  end.

(** ** Page "Dashboard" *)

(** [total_productos = df_productos["ID_Producto"].nunique()] *)
Definition total_productos (df_productos : list Producto.t) : nat :=
  List.length (Pd.unique (map Producto.ID_Producto df_productos)).

(** [total_stock = pd.to_numeric(df_productos["Stock"]).sum()]: computed on
    the column as loaded, before the column is coerced. *)
Definition total_stock (df_productos : list Producto.t) : Py.exn + Z :=
  match Pd.to_numeric (map Producto.Stock df_productos) with
  | inl e => inl e
  | inr col => inr (Pd.sum col)
  end.

(** The column after
    [df_productos["Stock"] = pd.to_numeric(df_productos["Stock"], errors='coerce').fillna(0)]. *)
Definition stock_coerced (df_productos : list Producto.t) : list Z :=
  Pd.fillna0 (Pd.to_numeric_coerce (map Producto.Stock df_productos)).

(** [len(productos_bajo_stock)], the rows with coerced stock at most 10. *)
Definition productos_bajo_stock (df_productos : list Producto.t) : nat :=
  List.length (filter (fun z => z <=? 10) (stock_coerced df_productos)).

(** The KPI block of the branch the page takes when "Productos" is not
    empty (the test is in [dashboard] below): the three indicators in the
    order the page computes them; an exception of [total_stock] ends the
    run. *)
Definition kpis (df_productos : list Producto.t) : Py.exn + (nat * Z * nat) :=
  let n := total_productos df_productos in
  match total_stock df_productos with
  | inl e => inl e
  | inr total => inr (n, total, productos_bajo_stock df_productos)
  end.

(** [df.groupby("Nombre")["Cantidad"].sum().nlargest(5)], after
    [df['Cantidad'] = pd.to_numeric(df['Cantidad'], errors='coerce')]. *)
Definition top_5 (log : list Movimiento.t) : list (cell * Z) :=
  let cantidad := Pd.to_numeric_coerce (map Movimiento.Cantidad log) in
  Pd.nlargest 5 (Pd.groupby_sum (map Movimiento.Nombre log) cantidad).

(** The two charts of the page, over "Ventas" and over "Compras". *)
Definition top_ventas (w : worksheets) : list (cell * Z) := top_5 (Ventas w).
Definition top_compras (w : worksheets) : list (cell * Z) := top_5 (Compras w).

(** What the dashboard shows when there are products. *)
Record panel : Type := mkPanel {
  indicadores : nat * Z * nat;
  mas_vendidos : list (cell * Z);
  mas_comprados : list (cell * Z)
}.

(** The page "Dashboard": with "Productos" empty it only warns that there
    is nothing to show ([None]); otherwise it computes the indicators and
    the two charts, an empty log giving an empty chart. *)
Definition dashboard (w : worksheets) : Py.exn + option panel :=
  match Productos w with
  | [] => inr None
  | _ :: _ =>
      match kpis (Productos w) with
      | inl e => inl e
      | inr k => inr (Some (mkPanel k (top_ventas w) (top_compras w)))
      end
  end.

(** ** Opening the spreadsheet *)

Module Gspread.

(** A spreadsheet: its worksheets in order, each with its title and the
    rows of values it holds. *)
Definition spreadsheet : Type := list (string * list (list string)).

(** [spreadsheet.worksheet(title)]: the first worksheet of that title;
    [None] is [WorksheetNotFound]. *)
Definition worksheet (title : string) (sp : spreadsheet) : option (list (list string)) :=
  option_map snd (find (fun h => String.eqb (fst h) title) sp).

(** [spreadsheet.add_worksheet(title=...)]: a new worksheet without
    values, after the others. *)
Definition add_worksheet (title : string) (sp : spreadsheet) : spreadsheet :=
  sp ++ [(title, [])].

(** [append_row(values)] on the worksheet of that title: one row after
    the rows it holds. *)
Fixpoint append_row (title : string) (values : list string) (sp : spreadsheet)
    : spreadsheet :=
  match sp with
  | [] => []
  | (t, rows) :: sp' =>
      if String.eqb t title
      then (t, rows ++ [values]) :: sp'
      else (t, rows) :: append_row title values sp'
  end.

End Gspread.

Definition sheet_names : list string := ["Productos"; "Ventas"; "Compras"].

(** The header row a new sheet is given. *)
Definition encabezado (name : string) : option (list string) :=
  if String.eqb name "Productos"
  then Some ["ID_Producto"; "Nombre"; "Categoría"; "Presentación"; "Stock"]
  else if String.eqb name "Ventas"
  then Some ["Fecha"; "ID_Producto"; "Nombre"; "Cantidad"; "Presentación"]
  else if String.eqb name "Compras"
  then Some ["Fecha"; "ID_Producto"; "Nombre"; "Cantidad"; "Presentación"]
  else None.

(** One turn of the loop of [get_sheets]: the sheet is looked up, and
    created with its header when it is not found. *)
Definition open_sheet (name : string) (sp : Gspread.spreadsheet) : Gspread.spreadsheet :=
  match Gspread.worksheet name sp with
  | Some _ => sp
  | None =>
      let sp' := Gspread.add_worksheet name sp in
      match encabezado name with
      | Some fila => Gspread.append_row name fila sp'
      | None => sp'
      end
  end.

(** [get_sheets(client)], as the spreadsheet it leaves behind; the
    dictionary it returns maps each of [sheet_names] to the worksheet of
    that title.  Failures of the connection are outside the model. *)
Definition get_sheets (sp : Gspread.spreadsheet) : Gspread.spreadsheet :=
  fold_left (fun sp name => open_sheet name sp) sheet_names sp.

(** ** What the claims speak of *)

(** "stock >= 0" for a row: the stock cell, read the way the handlers read
    it ([int(...)]), is a non-negative integer. *)
Definition stock_nonneg (r : Producto.t) : bool :=
  match Py.int (Producto.Stock r) with
  | Some s => 0 <=? s
  | None => false
  end.

Definition all_stock_nonneg (df : list Producto.t) : bool := forallb stock_nonneg df.

(** The ids of a table as strings, the way registration compares them:
    [df_productos["ID_Producto"].astype(str)]. *)
Definition ids (df : list Producto.t) : list string :=
  Pd.astype_str (map Producto.ID_Producto df).

(** The plain sum of a column of integers. *)
Definition suma (l : list Z) : Z := fold_right Z.add 0 l.

(** A Products table in which only the first row named [sel] has its
    stock replaced, rows after it left alone whatever their name. *)
Fixpoint replace_first_match (sel : cell) (v : Z) (df : list Producto.t) : list Producto.t :=
  match df with
  | [] => []
  | r :: df' =>
      if es_seleccionado sel r
      then Producto.set_Stock (Num v) r :: df'
      else r :: replace_first_match sel v df'
  end.

(** The sum of the quantities of the rows of a log named [n], quantities
    that are not numbers counting for nothing. *)
Definition suma_de (n : cell) (log : list Movimiento.t) : Z :=
  Pd.sum (map (fun m => Pd.coerce (Movimiento.Cantidad m))
              (filter (fun m => cell_eqb (Movimiento.Nombre m) n) log)).


(** The groups of a log, before the five largest are taken. *)
Definition groups (log : list Movimiento.t) : list (cell * Z) :=
  Pd.groupby_sum (map Movimiento.Nombre log)
    (Pd.to_numeric_coerce (map Movimiento.Cantidad log)).


(** The movement that undoes a movement. *)
Definition opposite (k : kind) : kind :=
  match k with
  | Sale => Purchase
  | Purchase => Sale
  end.

(** A stock cell [pd.to_numeric] reads without raising. *)
Definition readable (c : cell) : bool :=
  match c with
  | Text s => match Pd.number_of_str s with Some _ => true | None => false end
  | _ => true
  end.

(** The quantity of a movement row, an empty cell standing for none. *)
Definition cantidad (m : Movimiento.t) : Z :=
  match Movimiento.Cantidad m with
  | Num z => z
  | _ => 0
  end.



(** The stock of a row, an empty cell standing for none. *)
Definition stock_de (r : Producto.t) : Z :=
  match Producto.Stock r with
  | Num z => z
  | _ => 0
  end.

(** The total and the low-stock count the dashboard shows, if it shows
    the indicators at all. *)
Definition total_mostrado (d : Py.exn + option panel) : option Z :=
  match d with
  | inr (Some p) => Some (snd (fst (indicadores p)))
  | _ => None
  end.

Definition bajo_mostrado (d : Py.exn + option panel) : option nat :=
  match d with
  | inr (Some p) => Some (snd (indicadores p))
  | _ => None
  end.

(** A cell that is no text with characters beyond ASCII. *)
Definition ascii_cell (c : cell) : bool :=
  match c with
  | Text s => Py.is_ascii s
  | _ => true
  end.

(** [a] sorts no later than [b] among the group keys. *)
Definition key_le (a b : cell) : Prop := cell_leb a b = true.

(** The order of the entries of [top_5]: the greater sum first and, among
    equal sums, the key that sorts first. *)
Definition antes (a b : cell * Z) : Prop :=
  snd b < snd a \/ (snd a = snd b /\ key_le (fst a) (fst b)).

(** ** Sample tables *)

Module Sample.

Definition widget (id : string) (stock : cell) : Producto.t :=
  Producto.mk (Text id) (Text "Widget") (Text "Ferreteria") (Text "Caja") stock.

(** One product, stock 5 (the example of the specification). *)
Definition one : worksheets := mkSheets [widget "P1" (Num 5)] [] [].

(** Two products that share their name. *)
Definition same_name : worksheets :=
  mkSheets [widget "P1" (Num 5); widget "P2" (Num 9)] [] [].

(** A product whose stock cell is not a number. *)
Definition bad_stock : worksheets := mkSheets [widget "P1" (Text "abc")] [] [].

Definition fecha : string := "2024-05-01 10:30:00".

(** One product whose id is a number: the id column is float64. *)
Definition numeric_id : worksheets :=
  mkSheets
    [Producto.mk (Num 7) (Text "Widget") (Text "Ferreteria") (Text "Caja") (Num 5)]
    [] [].

(** One product, with the stock given. *)
Definition big (stock : Z) : worksheets := mkSheets [widget "P1" (Num stock)] [] [].

(** Six names; "c" has three rows and the smallest sum. *)
Definition fila (n : string) (q : Z) : Movimiento.t :=
  Movimiento.mk (Text fecha) (Text "P") (Text n) (Num q) (Text "Caja").


(** Stocks 5, "abc", 10. *)
Definition mixed_stock : list Producto.t :=
  [widget "P1" (Num 5); widget "P2" (Text "abc"); widget "P3" (Num 10)].

End Sample.

(** * Properties *)

(** ** The monad and the sheet operations *)

Lemma bind_ret {A B} (a : A) (k : A -> M B) (w : worksheets) :
  bind (ret a) k w = k a w.
Proof. reflexivity. Qed.

Lemma bind_raise {A B} (e : Py.exn) (k : A -> M B) (w : worksheets) :
  bind (raise e) k w = (Raise e, w).
Proof. reflexivity. Qed.

(** ** Looking a product up by name *)

Lemma filter_first_match {A} (p : A -> bool) (before after : list A) (x : A) :
  forallb (fun r => negb (p r)) before = true ->
  p x = true ->
  filter p (before ++ x :: after) = x :: filter p after.
Proof.
  intros Hb Hx. induction before as [|b before IH]; simpl in *.
  - now rewrite Hx.
  - apply andb_true_iff in Hb as [Hb1 Hb2].
    apply negb_true_iff in Hb1. rewrite Hb1. auto.
Qed.

Lemma app_cons_not_nil {A} (before after : list A) (x : A) :
  exists y l, before ++ x :: after = y :: l.
Proof. destruct before; simpl; eauto. Qed.

Lemma id_existe_In (id : string) (df : list Producto.t) :
  id_existe id df = true <-> In id (ids df).
Proof.
  unfold id_existe, ids.
  generalize (Pd.astype_str (map Producto.ID_Producto df)). intros l.
  rewrite existsb_exists. split.
  - intros (x & Hin & Heq). apply String.eqb_eq in Heq. now subst.
  - intros Hin. exists id. split; [assumption | apply String.eqb_refl].
Qed.

Lemma all_fields (a b c d : string) :
  Py.all [a; b; c; d] = true <-> a <> "" /\ b <> "" /\ c <> "" /\ d <> "".
Proof.
  unfold Py.all; simpl.
  destruct a, b, c, d; simpl; split; intros H;
    try discriminate; try reflexivity;
    try (repeat split; discriminate);
    destruct H as (Ha & Hb & Hc & Hd); congruence.
Qed.

(** ** Integers that a float64 holds *)

Example float64_round :
  map Float64.round [5; 2 ^ 53; 2 ^ 53 + 1; 2 ^ 53 + 2; 2 ^ 53 + 3; - (2 ^ 53 + 1)] =
    [5; 2 ^ 53; 2 ^ 53; 2 ^ 53 + 2; 2 ^ 53 + 4; - 2 ^ 53].
Proof. reflexivity. Qed.

Example float64_repr :
  map Float64.repr [0; 7; -15; 2 ^ 53; 10 ^ 16; 2 ^ 70] =
    ["0.0"; "7.0"; "-15.0"; "9007199254740992.0"; "1e+16"; "1.1805916207174113e+21"].
Proof. vm_compute. reflexivity. Qed.

Lemma spacing_pos (z : Z) : 0 < Float64.spacing z.
Proof. unfold Float64.spacing. apply Z.pow_pos_nonneg; lia. Qed.

Lemma spacing_small (z : Z) : Z.abs z < 2 ^ 53 -> Float64.spacing z = 1.
Proof.
  intros H. unfold Float64.spacing.
  assert (Hlog : Z.log2 (Z.abs z) - 52 <= 0).
  { destruct (Z.eq_dec (Z.abs z) 0) as [E | E].
    - rewrite E. simpl. lia.
    - assert (Hpos : 0 < Z.abs z) by lia.
      apply (Z.log2_lt_pow2 _ 53 Hpos) in H. lia. }
  rewrite Z.max_l by lia. reflexivity.
Qed.

(** Up to 2^53 in absolute value an integer is a float64. *)
Lemma round_exact (z : Z) : Z.abs z <= 2 ^ 53 -> Float64.round z = z.
Proof.
  intros H. destruct (Z.eq_dec (Z.abs z) (2 ^ 53)) as [E | E].
  - destruct (Z.abs_spec z) as [[_ Ez] | [_ Ez]]; rewrite Ez in E.
    + subst z. reflexivity.
    + assert (z = - 2 ^ 53) by lia. subst z. reflexivity.
  - unfold Float64.round. rewrite spacing_small by lia.
    rewrite Z.div_1_r, Z.mod_1_r. simpl. lia.
Qed.

(** Rounding keeps the sign. *)
Lemma round_nonneg (z : Z) : 0 <= z -> 0 <= Float64.round z.
Proof.
  intros H. unfold Float64.round.
  pose proof (spacing_pos z) as Hu.
  assert (Hn : 0 <= z / Float64.spacing z) by (apply Z.div_pos; lia).
  destruct (2 * (z mod Float64.spacing z) <? Float64.spacing z); [nia|].
  destruct (Float64.spacing z <? 2 * (z mod Float64.spacing z)); [nia|].
  destruct (Z.even (z / Float64.spacing z)); nia.
Qed.

Lemma stock_escrito_exact (df : list Producto.t) (v : Z) :
  Z.abs v <= 2 ^ 53 -> stock_escrito df v = v.
Proof.
  intros H. unfold stock_escrito.
  destruct (Pd.is_float64 _); [now apply round_exact | reflexivity].
Qed.

Lemma stock_escrito_nonneg (df : list Producto.t) (v : Z) :
  0 <= v -> 0 <= stock_escrito df v.
Proof.
  intros H. unfold stock_escrito.
  destruct (Pd.is_float64 _); [now apply round_nonneg | exact H].
Qed.

(** ** Writing a stock by name *)

Lemma loc_set_stock_length sel v df :
  List.length (loc_set_stock sel v df) = List.length df.
Proof. apply length_map. Qed.

Lemma loc_set_stock_nth sel v df i r :
  nth_error df i = Some r ->
  nth_error (loc_set_stock sel v df) i =
    Some (if cell_eqb (Producto.Nombre r) sel
          then Producto.set_Stock (Num (stock_escrito df v)) r else r).
Proof.
  intros H. unfold loc_set_stock. rewrite nth_error_map, H. reflexivity.
Qed.

Lemma loc_set_stock_nonneg sel v df :
  0 <= v ->
  all_stock_nonneg df = true ->
  all_stock_nonneg (loc_set_stock sel v df) = true.
Proof.
  intros Hv. unfold all_stock_nonneg, loc_set_stock.
  pose proof (stock_escrito_nonneg df v Hv) as Hw.
  generalize dependent (stock_escrito df v). intros v' Hv'.
  induction df as [|r df IH]; simpl; [reflexivity|].
  intros H. apply andb_true_iff in H as [Hr Hdf].
  apply andb_true_iff. split; [|auto].
  destruct (es_seleccionado sel r); [|assumption].
  unfold stock_nonneg; simpl. now apply Z.leb_le.
Qed.

(** ** The two movement handlers, run on a table where the product is found *)

Section Movement.

Variable w : worksheets.
Variable sel : cell.
Variables (before after : list Producto.t) (info : Producto.t).

(** [info] is the first row of "Productos" named [sel]. *)
Hypothesis Hrows : Productos w = before ++ info :: after.
Hypothesis Hfirst : forallb (fun r => negb (es_seleccionado sel r)) before = true.
Hypothesis Hname : es_seleccionado sel info = true.

Lemma submit_venta_run (s q : Z) (fecha : string) :
  Py.int (Producto.Stock info) = Some s ->
  submit_venta sel q fecha w =
    if q >? s
    then (Ret (InsufficientStockError s), w)
    else (Ret (VentaRegistrada q sel (s - q)),
          mkSheets (loc_set_stock sel (s - q) (Productos w))
                   (Ventas w ++ [nuevo_movimiento fecha info q])
                   (Compras w)).
Proof.
  intros Hs. destruct w as [P V C]; simpl in Hrows; subst P.
  unfold submit_venta, bind, load_productos; simpl.
  destruct (app_cons_not_nil before after info) as (y & l & E).
  rewrite E. rewrite <- E.
  rewrite (filter_first_match _ _ _ _ Hfirst Hname). simpl.
  unfold int. rewrite Hs. simpl.
  destruct (q >? s); reflexivity.
Qed.

Lemma submit_venta_no_int (q : Z) (fecha : string) :
  Py.int (Producto.Stock info) = None ->
  submit_venta sel q fecha w = (Raise Py.ValueError, w).
Proof.
  intros Hs. destruct w as [P V C]; simpl in Hrows; subst P.
  unfold submit_venta, bind, load_productos; simpl.
  destruct (app_cons_not_nil before after info) as (y & l & E).
  rewrite E. rewrite <- E.
  rewrite (filter_first_match _ _ _ _ Hfirst Hname). simpl.
  unfold int. rewrite Hs. reflexivity.
Qed.

Lemma submit_compra_run (s q : Z) (fecha : string) :
  Py.int (Producto.Stock info) = Some s ->
  submit_compra sel q fecha w =
    (Ret (CompraRegistrada q sel (s + q)),
     mkSheets (loc_set_stock sel (s + q) (Productos w))
              (Ventas w)
              (Compras w ++ [nuevo_movimiento fecha info q])).
Proof.
  intros Hs. destruct w as [P V C]; simpl in Hrows; subst P.
  unfold submit_compra, bind, load_productos; simpl.
  destruct (app_cons_not_nil before after info) as (y & l & E).
  rewrite E. rewrite <- E.
  rewrite (filter_first_match _ _ _ _ Hfirst Hname). simpl.
  unfold int. rewrite Hs. reflexivity.
Qed.

(** The purchase handler appends to "Compras" before it reads the stock. *)
Lemma submit_compra_no_int (q : Z) (fecha : string) :
  Py.int (Producto.Stock info) = None ->
  submit_compra sel q fecha w =
    (Raise Py.ValueError,
     mkSheets (Productos w) (Ventas w)
              (Compras w ++ [nuevo_movimiento fecha info q])).
Proof.
  intros Hs. destruct w as [P V C]; simpl in Hrows; subst P.
  unfold submit_compra, bind, load_productos; simpl.
  destruct (app_cons_not_nil before after info) as (y & l & E).
  rewrite E. rewrite <- E.
  rewrite (filter_first_match _ _ _ _ Hfirst Hname). simpl.
  unfold int. rewrite Hs. reflexivity.
Qed.

Lemma matched_row_after (v : Z) :
  nth_error (loc_set_stock sel v (Productos w)) (List.length before) =
    Some (Producto.set_Stock (Num (stock_escrito (Productos w) v)) info).
Proof.
  erewrite loc_set_stock_nth.
  - unfold es_seleccionado in Hname. rewrite Hname. reflexivity.
  - rewrite Hrows, nth_error_app2, Nat.sub_diag by apply Nat.le_refl. reflexivity.
Qed.

End Movement.

(** ** Sales *)

(** C2, as the code has it.  A Sale of quantity [q] on a product whose
    current stock is [s], with [q <= s] and [s - q] no greater than 2^53,
    succeeds: the row the name resolves to has stock [s - q] in the table
    written back, its other cells as they were, and "Ventas" is the former
    log with the one new movement row appended. *)
Theorem sale_within_stock (w : worksheets) (sel : cell)
    (before after : list Producto.t) (info : Producto.t)
    (s q : Z) (fecha : string) :
  Productos w = before ++ info :: after ->
  forallb (fun r => negb (es_seleccionado sel r)) before = true ->
  es_seleccionado sel info = true ->
  Py.int (Producto.Stock info) = Some s ->
  q <= s ->
  s - q <= 2 ^ 53 ->
  let run := record_movement Sale sel q fecha w in
  fst run = Ret (VentaRegistrada q sel (s - q)) /\
  nth_error (Productos (snd run)) (List.length before) =
    Some (Producto.mk (Producto.ID_Producto info) (Producto.Nombre info)
            (Producto.Categoria info) (Producto.Presentacion info)
            (Num (s - q))) /\
  Ventas (snd run) =
    Ventas w ++
    [Movimiento.mk (Text fecha) (Producto.ID_Producto info) (Producto.Nombre info)
       (Num q) (Producto.Presentacion info)] /\
  List.length (Ventas (snd run)) = S (List.length (Ventas w)).
Proof.
  intros Hrows Hfirst Hname Hs Hq Hbig. simpl.
  rewrite (submit_venta_run w sel before after info Hrows Hfirst Hname s q fecha Hs).
  destruct (q >? s) eqn:E; [apply Z.gtb_lt in E; lia|]. simpl.
  repeat split.
  - rewrite (matched_row_after w sel before after info Hrows Hname).
    rewrite stock_escrito_exact by lia. reflexivity.
  - rewrite length_app; simpl. lia.
Qed.

Lemma sale_within_stock_witness :
  let run := record_movement Sale (Text "Widget") 3 Sample.fecha Sample.one in
  fst run = Ret (VentaRegistrada 3 (Text "Widget") (5 - 3)) /\
  nth_error (Productos (snd run)) 0 =
    Some (Producto.mk (Text "P1") (Text "Widget") (Text "Ferreteria") (Text "Caja")
            (Num (5 - 3))) /\
  Ventas (snd run) =
    [] ++
    [Movimiento.mk (Text Sample.fecha) (Text "P1") (Text "Widget") (Num 3)
       (Text "Caja")] /\
  List.length (Ventas (snd run)) = 1%nat.
Proof.
  apply (sale_within_stock Sample.one (Text "Widget") [] []
           (Sample.widget "P1" (Num 5)) 5 3 Sample.fecha);
    [reflexivity | reflexivity | reflexivity | reflexivity | lia | lia].
Defined.

(** C2, as stated, fails beyond 2^53: on a stock of 2^53 + 2 a sale of 1
    goes through and reports 2^53 + 1, but the stock column, being
    float64, keeps 2^53. *)
Lemma sale_rounds_beyond_2_53 :
  let run :=
    record_movement Sale (Text "Widget") 1 Sample.fecha (Sample.big (2 ^ 53 + 2)) in
  Py.int (Num (2 ^ 53 + 2)) = Some (2 ^ 53 + 2) /\
  fst run = Ret (VentaRegistrada 1 (Text "Widget") (2 ^ 53 + 2 - 1)) /\
  map Producto.Stock (Productos (snd run)) = [Num (2 ^ 53)] /\
  map Producto.Stock (Productos (snd run)) <> [Num (2 ^ 53 + 2 - 1)].
Proof.
  split; [reflexivity|]. split; [reflexivity|]. split; [reflexivity|].
  vm_compute. intros H. discriminate H.
Qed.

(** C3.  A Sale of quantity [q] on a product whose current stock is [s],
    with [q > s], reports the insufficient stock and leaves the three
    sheets as they were: no row in "Ventas", "Productos" unchanged. *)
Theorem sale_beyond_stock (w : worksheets) (sel : cell)
    (before after : list Producto.t) (info : Producto.t)
    (s q : Z) (fecha : string) :
  Productos w = before ++ info :: after ->
  forallb (fun r => negb (es_seleccionado sel r)) before = true ->
  es_seleccionado sel info = true ->
  Py.int (Producto.Stock info) = Some s ->
  q > s ->
  record_movement Sale sel q fecha w = (Ret (InsufficientStockError s), w).
Proof.
  intros Hrows Hfirst Hname Hs Hq. simpl.
  rewrite (submit_venta_run w sel before after info Hrows Hfirst Hname s q fecha Hs).
  destruct (q >? s) eqn:E; [reflexivity|].
  rewrite Z.gtb_ltb in E. apply Z.ltb_ge in E. lia.
Qed.

Lemma sale_beyond_stock_witness :
  record_movement Sale (Text "Widget") 10 Sample.fecha Sample.one =
    (Ret (InsufficientStockError 5), Sample.one).
Proof.
  apply (sale_beyond_stock Sample.one (Text "Widget") [] []
           (Sample.widget "P1" (Num 5)) 5 10 Sample.fecha);
    [reflexivity | reflexivity | reflexivity | reflexivity | lia].
Defined.

(** The example of the specification: stock 5, a sale of 3 leaves 2 and one
    row in "Ventas"; a sale of 10 afterwards is rejected and the stock
    stays 2. *)
Example sale_3_then_10 :
  let w1 := snd (submit_venta (Text "Widget") 3 Sample.fecha Sample.one) in
  map Producto.Stock (Productos w1) = [Num 2] /\
  List.length (Ventas w1) = 1%nat /\
  submit_venta (Text "Widget") 10 Sample.fecha w1 = (Ret (InsufficientStockError 2), w1).
Proof. repeat split. Qed.

(** ** Purchases *)

(** C4, as the code has it.  A Purchase of quantity [q > 0] on an
    existing product whose current stock is [s] succeeds whatever [q] and
    [s] are, and "Compras" is the former log with the one new movement row
    appended; the row the name resolves to has stock [s + q] in the table
    written back, its other cells as they were, as long as [s + q] is no
    greater than 2^53 in absolute value. *)
Theorem purchase_adds_stock (w : worksheets) (sel : cell)
    (before after : list Producto.t) (info : Producto.t)
    (s q : Z) (fecha : string) :
  Productos w = before ++ info :: after ->
  forallb (fun r => negb (es_seleccionado sel r)) before = true ->
  es_seleccionado sel info = true ->
  Py.int (Producto.Stock info) = Some s ->
  0 < q ->
  let run := record_movement Purchase sel q fecha w in
  fst run = Ret (CompraRegistrada q sel (s + q)) /\
  Compras (snd run) =
    Compras w ++
    [Movimiento.mk (Text fecha) (Producto.ID_Producto info) (Producto.Nombre info)
       (Num q) (Producto.Presentacion info)] /\
  List.length (Compras (snd run)) = S (List.length (Compras w)) /\
  (Z.abs (s + q) <= 2 ^ 53 ->
   nth_error (Productos (snd run)) (List.length before) =
     Some (Producto.mk (Producto.ID_Producto info) (Producto.Nombre info)
             (Producto.Categoria info) (Producto.Presentacion info)
             (Num (s + q)))).
Proof.
  intros Hrows Hfirst Hname Hs Hq. simpl.
  rewrite (submit_compra_run w sel before after info Hrows Hfirst Hname s q fecha Hs).
  simpl. repeat split.
  - rewrite length_app; simpl. lia.
  - intros Hbig. rewrite (matched_row_after w sel before after info Hrows Hname).
    rewrite stock_escrito_exact by lia. reflexivity.
Qed.

Lemma purchase_adds_stock_witness :
  let run :=
    record_movement Purchase (Text "Widget") 1000000 Sample.fecha Sample.same_name in
  fst run = Ret (CompraRegistrada 1000000 (Text "Widget") (5 + 1000000)) /\
  Compras (snd run) =
    [] ++
    [Movimiento.mk (Text Sample.fecha) (Text "P1") (Text "Widget") (Num 1000000)
       (Text "Caja")] /\
  List.length (Compras (snd run)) = 1%nat /\
  nth_error (Productos (snd run)) 0 =
    Some (Producto.mk (Text "P1") (Text "Widget") (Text "Ferreteria") (Text "Caja")
            (Num (5 + 1000000))).
Proof.
  destruct (purchase_adds_stock Sample.same_name (Text "Widget") []
              [Sample.widget "P2" (Num 9)]
              (Sample.widget "P1" (Num 5)) 5 1000000 Sample.fecha)
    as (Hmsg & Hlog & Hlen & Hstock);
    [reflexivity | reflexivity | reflexivity | reflexivity | lia |].
  split; [exact Hmsg|]. split; [exact Hlog|]. split; [exact Hlen|].
  apply Hstock. vm_compute. discriminate.
Defined.

(** C4, as stated, fails beyond 2^53: on a stock of 2^53 a purchase of 1
    goes through and reports 2^53 + 1, but the stock column, being
    float64, keeps 2^53. *)
Lemma purchase_rounds_beyond_2_53 :
  let run :=
    record_movement Purchase (Text "Widget") 1 Sample.fecha (Sample.big (2 ^ 53)) in
  Py.int (Num (2 ^ 53)) = Some (2 ^ 53) /\
  fst run = Ret (CompraRegistrada 1 (Text "Widget") (2 ^ 53 + 1)) /\
  map Producto.Stock (Productos (snd run)) = [Num (2 ^ 53)] /\
  map Producto.Stock (Productos (snd run)) <> [Num (2 ^ 53 + 1)].
Proof.
  split; [reflexivity|]. split; [reflexivity|]. split; [reflexivity|].
  vm_compute. intros H. discriminate H.
Qed.

(** ** Which rows a movement touches *)

(** C5.  The lookup resolves the name to its first row, but the write
    goes to every row of that name: with two rows named "Widget" (P1 with
    stock 5, P2 with stock 9), a sale of 3 reads and logs P1 alone, and
    writes 2 to the stock of P1 and of P2, whereas replacing the stock of
    the matching row alone would leave P2 at 9. *)
Theorem movement_touches_rows_of_same_name :
  let w' := snd (record_movement Sale (Text "Widget") 3 Sample.fecha Sample.same_name) in
  map (fun r => (Producto.ID_Producto r, Producto.Stock r)) (Productos Sample.same_name) =
    [(Text "P1", Num 5); (Text "P2", Num 9)] /\
  map (fun r => (Producto.ID_Producto r, Producto.Stock r)) (Productos w') =
    [(Text "P1", Num 2); (Text "P2", Num 2)] /\
  Ventas w' =
    [Movimiento.mk (Text Sample.fecha) (Text "P1") (Text "Widget") (Num 3)
       (Text "Caja")] /\
  Productos w' <> replace_first_match (Text "Widget") 2 (Productos Sample.same_name).
Proof.
  split; [reflexivity|]. split; [reflexivity|]. split; [reflexivity|].
  vm_compute. intros H. discriminate H.
Qed.

(** ** Stock stays non-negative *)

Lemma form_nuevo_producto_run w id nombre categoria presentacion stock_inicial :
  form_nuevo_producto id nombre categoria presentacion stock_inicial w =
    if negb (Py.all [id; nombre; categoria; presentacion])
    then (Ret MissingFieldError, w)
    else if id_existe id (Productos w)
    then (Ret (DuplicateIdError id), w)
    else (Ret (ProductoAnadido nombre),
          mkSheets
            (Productos w ++
             [nuevo_producto id nombre categoria presentacion stock_inicial])
            (Ventas w) (Compras w)).
Proof.
  unfold form_nuevo_producto, bind, load_productos.
  destruct (negb (Py.all [id; nombre; categoria; presentacion])); [reflexivity|].
  destruct (id_existe id (Productos w)); reflexivity.
Qed.

Lemma form_nuevo_producto_nonneg w id nombre categoria presentacion stock_inicial :
  0 <= stock_inicial ->
  all_stock_nonneg (Productos w) = true ->
  all_stock_nonneg
    (Productos (snd (form_nuevo_producto id nombre categoria presentacion
                       stock_inicial w))) = true.
Proof.
  intros Hst H. rewrite form_nuevo_producto_run.
  destruct (negb (Py.all [id; nombre; categoria; presentacion])); [exact H|].
  destruct (id_existe id (Productos w)); simpl; [exact H|].
  unfold all_stock_nonneg. rewrite forallb_app. apply andb_true_iff. split.
  - exact H.
  - simpl. unfold stock_nonneg; simpl. rewrite andb_true_r. now apply Z.leb_le.
Qed.

Lemma submit_venta_nonneg w sel q fecha :
  all_stock_nonneg (Productos w) = true ->
  all_stock_nonneg (Productos (snd (submit_venta sel q fecha w))) = true.
Proof.
  intros H. destruct w as [P V C]. simpl in H.
  unfold submit_venta, bind, load_productos; simpl.
  destruct P as [|p P]; [reflexivity|]. cbv beta iota.
  remember (p :: P) as df eqn:Edf.
  destruct (filter (es_seleccionado sel) df) as [|info rest]; [exact H|].
  simpl. unfold int.
  destruct (Py.int (Producto.Stock info)) as [s|]; simpl; [|exact H].
  destruct (q >? s) eqn:E; simpl; [exact H|].
  apply loc_set_stock_nonneg; [|exact H].
  rewrite Z.gtb_ltb in E. apply Z.ltb_ge in E. lia.
Qed.

Lemma submit_compra_nonneg w sel q fecha :
  0 < q ->
  all_stock_nonneg (Productos w) = true ->
  all_stock_nonneg (Productos (snd (submit_compra sel q fecha w))) = true.
Proof.
  intros Hq H. destruct w as [P V C]. simpl in H.
  unfold submit_compra, bind, load_productos; simpl.
  destruct P as [|p P]; [reflexivity|]. cbv beta iota.
  remember (p :: P) as df eqn:Edf.
  destruct (filter (es_seleccionado sel) df) as [|info rest] eqn:F; [exact H|].
  assert (Hin : In info df).
  { apply (proj1 (filter_In (es_seleccionado sel) info df)).
    rewrite F. now left. }
  unfold all_stock_nonneg in H. rewrite forallb_forall in H.
  specialize (H info Hin) as Hinfo. unfold stock_nonneg in Hinfo.
  simpl. unfold int.
  destruct (Py.int (Producto.Stock info)) as [s|]; simpl.
  - apply loc_set_stock_nonneg.
    + apply Z.leb_le in Hinfo. lia.
    + unfold all_stock_nonneg. now apply forallb_forall.
  - unfold all_stock_nonneg. now apply forallb_forall.
Qed.

(** C1.  On a "Productos" table whose rows all have stock >= 0, each of
    the three operations (registration with an initial stock >= 0, a Sale,
    a Purchase of a positive quantity) leaves a table whose rows all have
    stock >= 0, and a Sale that would take the stock below zero is
    rejected with the sheets unchanged. *)
Theorem stock_never_negative (w : worksheets) :
  all_stock_nonneg (Productos w) = true ->
  (forall id nombre categoria presentacion stock_inicial,
      0 <= stock_inicial ->
      all_stock_nonneg
        (Productos (snd (form_nuevo_producto id nombre categoria presentacion
                           stock_inicial w))) = true) /\
  (forall sel q fecha,
      all_stock_nonneg (Productos (snd (record_movement Sale sel q fecha w))) = true) /\
  (forall sel q fecha,
      0 < q ->
      all_stock_nonneg (Productos (snd (record_movement Purchase sel q fecha w))) = true) /\
  (forall sel q fecha before after info s,
      Productos w = before ++ info :: after ->
      forallb (fun r => negb (es_seleccionado sel r)) before = true ->
      es_seleccionado sel info = true ->
      Py.int (Producto.Stock info) = Some s ->
      s - q < 0 ->
      record_movement Sale sel q fecha w = (Ret (InsufficientStockError s), w)).
Proof.
  intros H. repeat split.
  - intros. now apply form_nuevo_producto_nonneg.
  - intros. now apply submit_venta_nonneg.
  - intros. now apply submit_compra_nonneg.
  - intros sel q fecha before after info s Hrows Hfirst Hname Hs Hq. simpl.
    rewrite (submit_venta_run w sel before after info Hrows Hfirst Hname s q fecha Hs).
    destruct (q >? s) eqn:E; [reflexivity|].
    rewrite Z.gtb_ltb in E. apply Z.ltb_ge in E. lia.
Qed.

Lemma stock_never_negative_witness :
  all_stock_nonneg
    (Productos (snd (form_nuevo_producto "P2" "Gadget" "Ferreteria" "Caja" 0
                       Sample.one))) = true /\
  all_stock_nonneg
    (Productos (snd (record_movement Sale (Text "Widget") 5 Sample.fecha Sample.one)))
    = true /\
  all_stock_nonneg
    (Productos (snd (record_movement Purchase (Text "Widget") 7 Sample.fecha Sample.one)))
    = true /\
  record_movement Sale (Text "Widget") 6 Sample.fecha Sample.one =
    (Ret (InsufficientStockError 5), Sample.one).
Proof.
  destruct (stock_never_negative Sample.one) as (Hreg & Hsale & Hpur & Hrej);
    [reflexivity|].
  split; [apply Hreg; lia|].
  split; [apply Hsale|].
  split; [apply Hpur; lia|].
  apply (Hrej (Text "Widget") 6 Sample.fecha [] [] (Sample.widget "P1" (Num 5)) 5);
    [reflexivity | reflexivity | reflexivity | reflexivity | lia].
Defined.

(** ** Registration *)




(** A numeric id is compared as the float it is in the frame: 7 reads
    "7.0", so that the form id "7" is taken for new and "7.0" for a
    duplicate. *)
Example register_numeric_id :
  ids (Productos Sample.numeric_id) = ["7.0"] /\
  fst (form_nuevo_producto "7" "Gadget" "Ferreteria" "Caja" 4 Sample.numeric_id) =
    Ret (ProductoAnadido "Gadget") /\
  form_nuevo_producto "7.0" "Gadget" "Ferreteria" "Caja" 4 Sample.numeric_id =
    (Ret (DuplicateIdError "7.0"), Sample.numeric_id).
Proof. repeat split. Qed.

(** C8.  A registration with the four text fields filled in, an initial
    stock >= 0 and an id not yet in the table writes back the table with
    exactly one more row, the last, holding the submitted values; every
    earlier row is where it was and as it was. *)
Theorem register_valid_appends (w : worksheets)
    (id nombre categoria presentacion : string) (stock_inicial : Z) :
  id <> "" -> nombre <> "" -> categoria <> "" -> presentacion <> "" ->
  0 <= stock_inicial ->
  ~ In id (ids (Productos w)) ->
  let run := form_nuevo_producto id nombre categoria presentacion stock_inicial w in
  let fila :=
    Producto.mk (Text id) (Text nombre) (Text categoria) (Text presentacion)
      (Num stock_inicial) in
  fst run = Ret (ProductoAnadido nombre) /\
  Productos (snd run) = Productos w ++ [fila] /\
  List.length (Productos (snd run)) = S (List.length (Productos w)) /\
  (forall i, (i < List.length (Productos w))%nat ->
             nth_error (Productos (snd run)) i = nth_error (Productos w) i) /\
  Ventas (snd run) = Ventas w /\ Compras (snd run) = Compras w.
Proof.
  intros Hid Hn Hc Hp Hst Hnew. simpl.
  assert (Hall : Py.all [id; nombre; categoria; presentacion] = true)
    by (apply all_fields; auto).
  assert (Hex : id_existe id (Productos w) = false).
  { destruct (id_existe id (Productos w)) eqn:E; [|reflexivity].
    apply id_existe_In in E. contradiction. }
  rewrite form_nuevo_producto_run, Hall, Hex. simpl.
  repeat split.
  - rewrite length_app; simpl. lia.
  - intros i Hi. now apply nth_error_app1.
Qed.

Lemma register_valid_appends_witness :
  let run := form_nuevo_producto "P2" "Gadget" "Ferreteria" "Caja" 4 Sample.one in
  let fila :=
    Producto.mk (Text "P2") (Text "Gadget") (Text "Ferreteria") (Text "Caja") (Num 4) in
  fst run = Ret (ProductoAnadido "Gadget") /\
  Productos (snd run) = Productos Sample.one ++ [fila] /\
  List.length (Productos (snd run)) = S (List.length (Productos Sample.one)) /\
  (forall i, (i < List.length (Productos Sample.one))%nat ->
             nth_error (Productos (snd run)) i = nth_error (Productos Sample.one) i) /\
  Ventas (snd run) = Ventas Sample.one /\ Compras (snd run) = Compras Sample.one.
Proof.
  apply (register_valid_appends Sample.one "P2" "Gadget" "Ferreteria" "Caja" 4);
    try discriminate; try lia.
  simpl. intros [H | []]. discriminate H.
Defined.

(** ** A stock cell that is not an integer *)

(** The sale handler converts before it writes anything. *)
Lemma sale_bad_stock_unchanged (w : worksheets) (sel : cell)
    (before after : list Producto.t) (info : Producto.t) (q : Z) (fecha : string) :
  Productos w = before ++ info :: after ->
  forallb (fun r => negb (es_seleccionado sel r)) before = true ->
  es_seleccionado sel info = true ->
  Py.int (Producto.Stock info) = None ->
  record_movement Sale sel q fecha w = (Raise Py.ValueError, w).
Proof.
  intros Hrows Hfirst Hname Hs.
  exact (submit_venta_no_int w sel before after info Hrows Hfirst Hname q fecha Hs).
Qed.

(** The purchase handler has written the row to "Compras" by then. *)
Lemma purchase_bad_stock_log_written (w : worksheets) (sel : cell)
    (before after : list Producto.t) (info : Producto.t) (q : Z) (fecha : string) :
  Productos w = before ++ info :: after ->
  forallb (fun r => negb (es_seleccionado sel r)) before = true ->
  es_seleccionado sel info = true ->
  Py.int (Producto.Stock info) = None ->
  let run := record_movement Purchase sel q fecha w in
  fst run = Raise Py.ValueError /\
  Productos (snd run) = Productos w /\
  Compras (snd run) = Compras w ++ [nuevo_movimiento fecha info q].
Proof.
  intros Hrows Hfirst Hname Hs. simpl.
  rewrite (submit_compra_no_int w sel before after info Hrows Hfirst Hname q fecha Hs).
  simpl. auto.
Qed.

(** C10.  The conversion of the stock cell with [int] comes before any
    write in the sale handler only.  On a table whose one product has the
    stock "abc", a Sale raises [ValueError] with the sheets unchanged, but
    a Purchase raises [ValueError] after the movement row has been written
    to "Compras": the log is not left as it was. *)
Theorem purchase_bad_stock_partial_write :
  record_movement Sale (Text "Widget") 1 Sample.fecha Sample.bad_stock =
    (Raise Py.ValueError, Sample.bad_stock) /\
  record_movement Purchase (Text "Widget") 1 Sample.fecha Sample.bad_stock =
    (Raise Py.ValueError,
     mkSheets (Productos Sample.bad_stock) []
       [nuevo_movimiento Sample.fecha (Sample.widget "P1" (Text "abc")) 1]) /\
  Compras (snd (record_movement Purchase (Text "Widget") 1 Sample.fecha Sample.bad_stock))
    <> Compras Sample.bad_stock.
Proof.
  split; [reflexivity|]. split; [reflexivity|].
  vm_compute. intros H. discriminate H.
Qed.

(** ** The dashboard total *)

Lemma sum_fillna0 (col : list (option Z)) : Pd.sum col = suma (Pd.fillna0 col).
Proof.
  induction col as [|[z|] col IH]; simpl; [reflexivity | | ]; rewrite IH; reflexivity.
Qed.

Lemma to_numeric_coerce_agree (col : list cell) (r : list (option Z)) :
  Pd.to_numeric col = inr r -> r = Pd.to_numeric_coerce col.
Proof.
  revert r. induction col as [|c col IH]; simpl; intros r H.
  - now inversion H.
  - destruct c as [z|s|]; simpl.
    + destruct (Pd.to_numeric col) as [e|r']; [discriminate|].
      inversion H; subst. now rewrite (IH r' eq_refl).
    + destruct (Pd.number_of_str s) as [z|]; [|discriminate].
      destruct (Pd.to_numeric col) as [e|r']; [discriminate|].
      inversion H; subst. now rewrite (IH r' eq_refl).
    + destruct (Pd.to_numeric col) as [e|r']; [discriminate|].
      inversion H; subst. now rewrite (IH r' eq_refl).
Qed.

(** When the total is computed at all, it is the sum with the missing
    values counted as 0. *)
Lemma total_stock_value (df : list Producto.t) (z : Z) :
  total_stock df = inr z -> z = suma (stock_coerced df).
Proof.
  unfold total_stock, stock_coerced.
  destruct (Pd.to_numeric (map Producto.Stock df)) as [e|r] eqn:E; [discriminate|].
  intros H; inversion H; subst.
  rewrite (to_numeric_coerce_agree _ _ E). apply sum_fillna0.
Qed.

(** A stock column of numbers and missing values never raises. *)
Lemma total_stock_no_text (df : list Producto.t) :
  forallb (fun r => match Producto.Stock r with Text _ => false | _ => true end) df = true ->
  total_stock df = inr (suma (stock_coerced df)).
Proof.
  intros H.
  assert (E : exists r, Pd.to_numeric (map Producto.Stock df) = inr r).
  { induction df as [|p df IH]; simpl in *; [eauto|].
    apply andb_true_iff in H as [Hp Hdf].
    destruct (IH Hdf) as (r & Hr). rewrite Hr.
    destruct (Producto.Stock p); [eauto | discriminate | eauto]. }
  destruct E as (r & Hr).
  destruct (total_stock df) as [e|z] eqn:T.
  - unfold total_stock in T. rewrite Hr in T. discriminate.
  - now rewrite (total_stock_value df z T).
Qed.

(** C6.  Over the stocks 5, "abc", 10 the total the dashboard computes is
    not 15: [pd.to_numeric] is called without [errors='coerce'] for the
    total and raises [ValueError] on "abc".  The column coerced two lines
    further down, for the low-stock count, does sum to 15. *)
Theorem total_stock_raises_on_text :
  total_stock Sample.mixed_stock = inl Py.ValueError /\
  kpis Sample.mixed_stock = inl Py.ValueError /\
  stock_coerced Sample.mixed_stock = [5; 0; 10] /\
  suma (stock_coerced Sample.mixed_stock) = 15.
Proof. repeat split. Qed.

(** ** Grouping and the five largest sums *)

Lemma cell_eqb_eq (a b : cell) : cell_eqb a b = true -> a = b /\ b <> NaN.
Proof.
  destruct a, b; simpl; try discriminate; intros H.
  - apply Z.eqb_eq in H. subst. split; [reflexivity|discriminate].
  - apply String.eqb_eq in H. subst. split; [reflexivity|discriminate].
Qed.


Section Unique.




End Unique.

Section Sorting.

Lemma insert_key_perm (k : cell) (l : list cell) :
  Permutation (Pd.insert_key k l) (k :: l).
Proof.
  induction l as [|a l IH]; simpl; [reflexivity|].
  destruct (cell_leb k a); [reflexivity|].
  rewrite IH. apply perm_swap.
Qed.


Lemma insert_desc_perm (x : cell * Z) (l : list (cell * Z)) :
  Permutation (Pd.insert_desc x l) (x :: l).
Proof.
  induction l as [|a l IH]; simpl; [reflexivity|].
  destruct (snd a <=? snd x); [reflexivity|].
  rewrite IH. apply perm_swap.
Qed.

Lemma sort_desc_perm (l : list (cell * Z)) : Permutation (Pd.sort_desc l) l.
Proof.
  induction l as [|a l IH]; simpl; [reflexivity|].
  rewrite insert_desc_perm. now constructor.
Qed.




End Sorting.

Section TopFive.

Lemma filter_combine_map {A} (f : A -> cell) (g : A -> option Z) (k : cell)
    (l : list A) :
  map snd (filter (fun r => cell_eqb (fst r) k) (combine (map f l) (map g l))) =
  map g (filter (fun m => cell_eqb (f m) k) l).
Proof.
  induction l as [|a l IH]; simpl; [reflexivity|].
  destruct (cell_eqb (f a) k); simpl; now rewrite IH.
Qed.


Variable log : list Movimiento.t.

Lemma top_5_groups : top_5 log = firstn 5 (Pd.sort_desc (groups log)).
Proof. reflexivity. Qed.






End TopFive.





(** Six names: "c" has three rows but the smallest sum, and is the one
    left out. *)
Example top_5_of_six :
  let fila n q := Movimiento.mk (Text Sample.fecha) (Text "P") (Text n) (Num q) (Text "Caja") in
  top_5 [fila "c" 1; fila "a" 4; fila "c" 1; fila "b" 7; fila "d" 5;
         fila "c" 1; fila "e" 6; fila "f" 9] =
    [(Text "f", 9); (Text "b", 7); (Text "e", 6); (Text "d", 5); (Text "a", 4)].
Proof. reflexivity. Qed.

(** * Further properties of the handlers *)

(** ** Registration *)

(** A form with one of the four text fields left empty reports the missing
    field and writes nothing, whatever the id and the table. *)
Theorem register_missing_field (w : worksheets)
    (id nombre categoria presentacion : string) (stock_inicial : Z) :
  id = "" \/ nombre = "" \/ categoria = "" \/ presentacion = "" ->
  form_nuevo_producto id nombre categoria presentacion stock_inicial w =
    (Ret MissingFieldError, w).
Proof.
  intros H. rewrite form_nuevo_producto_run.
  destruct (Py.all [id; nombre; categoria; presentacion]) eqn:E; [|reflexivity].
  apply all_fields in E. exfalso. tauto.
Qed.

Lemma register_missing_field_witness :
  form_nuevo_producto "P9" "Gadget" "" "Caja" 3 Sample.one =
    (Ret MissingFieldError, Sample.one).
Proof.
  apply (register_missing_field Sample.one "P9" "Gadget" "" "Caja" 3).
  right. right. left. reflexivity.
Defined.

(** ** Movements on a product that is not found *)

Lemma filter_none {A} (p : A -> bool) (l : list A) :
  forallb (fun r => negb (p r)) l = true -> filter p l = [].
Proof.
  induction l as [|a l IH]; simpl; [reflexivity|].
  intros H. apply andb_true_iff in H as [Ha Hl].
  apply negb_true_iff in Ha. rewrite Ha. auto.
Qed.

Lemma movement_no_match (k : kind) (w : worksheets) (sel : cell)
    (q : Z) (fecha : string) :
  forallb (fun r => negb (es_seleccionado sel r)) (Productos w) = true ->
  record_movement k sel q fecha w =
    (match Productos w with
     | [] => Ret SinProductos
     | _ :: _ => Raise Py.IndexError
     end, w).
Proof.
  intros H. apply filter_none in H.
  destruct w as [P V C]; simpl in H.
  destruct k; simpl; unfold submit_venta, submit_compra, bind, load_productos; simpl.
  - destruct P as [|p P]; [reflexivity|]. rewrite H. reflexivity.
  - destruct P as [|p P]; [reflexivity|]. rewrite H. reflexivity.
Qed.

(** A movement on a name that no row of "Productos" bears writes nothing:
    with an empty table the page only warns that there are no products,
    otherwise [.iloc[0]] raises [IndexError] before the form is reached. *)
Theorem movement_unknown_name (k : kind) (w : worksheets) (sel : cell)
    (q : Z) (fecha : string) :
  forallb (fun r => negb (es_seleccionado sel r)) (Productos w) = true ->
  record_movement k sel q fecha w =
    (match Productos w with
     | [] => Ret SinProductos
     | _ :: _ => Raise Py.IndexError
     end, w).
Proof. apply movement_no_match. Qed.

Lemma movement_unknown_name_witness :
  record_movement Purchase (Text "Gadget") 2 Sample.fecha Sample.one =
    (Raise Py.IndexError, Sample.one).
Proof.
  apply (movement_unknown_name Purchase Sample.one (Text "Gadget") 2 Sample.fecha).
  reflexivity.
Defined.

(** A product whose name cell is missing cannot be moved: selecting it
    matches no row, not even its own, so nothing is ever written. *)
Theorem movement_missing_name (k : kind) (w : worksheets) (q : Z) (fecha : string) :
  record_movement k NaN q fecha w =
    (match Productos w with
     | [] => Ret SinProductos
     | _ :: _ => Raise Py.IndexError
     end, w).
Proof.
  apply movement_no_match.
  apply forallb_forall. intros r _. unfold es_seleccionado.
  destruct (Producto.Nombre r); reflexivity.
Qed.

(** ** What a movement leaves alone *)

Lemma submit_venta_outcomes (w : worksheets) (sel : cell) (q : Z) (fecha : string) :
  snd (submit_venta sel q fecha w) = w \/
  exists info s,
    In info (Productos w) /\ es_seleccionado sel info = true /\
    snd (submit_venta sel q fecha w) =
      mkSheets (loc_set_stock sel (s - q) (Productos w))
               (Ventas w ++ [nuevo_movimiento fecha info q]) (Compras w).
Proof.
  destruct w as [P V C].
  unfold submit_venta, bind, load_productos; simpl.
  destruct P as [|p P]; [now left|]. cbv beta iota.
  remember (p :: P) as df eqn:Edf.
  destruct (filter (es_seleccionado sel) df) as [|info rest] eqn:F; [now left|].
  assert (Hin : In info df /\ es_seleccionado sel info = true).
  { apply filter_In. rewrite F. now left. }
  simpl. unfold int.
  destruct (Py.int (Producto.Stock info)) as [s|]; simpl; [|now left].
  destruct (q >? s); simpl; [now left|].
  right. exists info, s. tauto.
Qed.

Lemma submit_compra_outcomes (w : worksheets) (sel : cell) (q : Z) (fecha : string) :
  snd (submit_compra sel q fecha w) = w \/
  exists info,
    In info (Productos w) /\ es_seleccionado sel info = true /\
    (snd (submit_compra sel q fecha w) =
       mkSheets (Productos w) (Ventas w)
                (Compras w ++ [nuevo_movimiento fecha info q]) \/
     exists s,
       snd (submit_compra sel q fecha w) =
         mkSheets (loc_set_stock sel (s + q) (Productos w)) (Ventas w)
                  (Compras w ++ [nuevo_movimiento fecha info q])).
Proof.
  destruct w as [P V C].
  unfold submit_compra, bind, load_productos; simpl.
  destruct P as [|p P]; [now left|]. cbv beta iota.
  remember (p :: P) as df eqn:Edf.
  destruct (filter (es_seleccionado sel) df) as [|info rest] eqn:F; [now left|].
  assert (Hin : In info df /\ es_seleccionado sel info = true).
  { apply filter_In. rewrite F. now left. }
  simpl. unfold int. right. exists info.
  destruct (Py.int (Producto.Stock info)) as [s|]; simpl.
  - split; [tauto|]. split; [tauto|]. right. now exists s.
  - split; [tauto|]. split; [tauto|]. now left.
Qed.

Lemma loc_set_stock_columns sel v df :
  map Producto.ID_Producto (loc_set_stock sel v df) = map Producto.ID_Producto df /\
  map Producto.Nombre (loc_set_stock sel v df) = map Producto.Nombre df /\
  map Producto.Categoria (loc_set_stock sel v df) = map Producto.Categoria df /\
  map Producto.Presentacion (loc_set_stock sel v df) = map Producto.Presentacion df.
Proof.
  unfold loc_set_stock. rewrite !map_map.
  repeat split; apply map_ext; intros r; destruct (es_seleccionado sel r); reflexivity.
Qed.

Lemma loc_set_stock_other_names sel v df :
  filter (fun r => negb (es_seleccionado sel r)) (loc_set_stock sel v df) =
  filter (fun r => negb (es_seleccionado sel r)) df.
Proof.
  unfold loc_set_stock. generalize (stock_escrito df v). intros v'.
  induction df as [|r df IH]; simpl; [reflexivity|].
  destruct (es_seleccionado sel r) eqn:E.
  - unfold es_seleccionado in *. simpl. rewrite E. simpl. exact IH.
  - rewrite E. simpl. now rewrite IH.
Qed.

(** Whatever a movement is given and however it ends, the only cells of
    "Productos" it can change are stock cells of rows named as selected:
    the id, name, category and presentation columns are as before, the rows
    of another name are as before, and the log of the other kind is
    untouched. *)
Theorem movement_frame (k : kind) (w : worksheets) (sel : cell) (q : Z)
    (fecha : string) :
  let w' := snd (record_movement k sel q fecha w) in
  map Producto.ID_Producto (Productos w') = map Producto.ID_Producto (Productos w) /\
  map Producto.Nombre (Productos w') = map Producto.Nombre (Productos w) /\
  map Producto.Categoria (Productos w') = map Producto.Categoria (Productos w) /\
  map Producto.Presentacion (Productos w') = map Producto.Presentacion (Productos w) /\
  filter (fun r => negb (es_seleccionado sel r)) (Productos w') =
    filter (fun r => negb (es_seleccionado sel r)) (Productos w) /\
  movement_log (opposite k) w' = movement_log (opposite k) w.
Proof.
  destruct k; simpl.
  - destruct (submit_venta_outcomes w sel q fecha) as [E | (info & s & _ & _ & E)];
      rewrite E; simpl; [tauto|].
    pose proof (loc_set_stock_columns sel (s - q) (Productos w)).
    pose proof (loc_set_stock_other_names sel (s - q) (Productos w)). tauto.
  - destruct (submit_compra_outcomes w sel q fecha)
      as [E | (info & _ & _ & [E | (s & E)])]; rewrite E; simpl; [tauto | tauto |].
    pose proof (loc_set_stock_columns sel (s + q) (Productos w)).
    pose proof (loc_set_stock_other_names sel (s + q) (Productos w)). tauto.
Qed.

(** The logs only grow, and by one row at a time: after a movement its log
    is the former log, or the former log followed by one row that carries
    the date, the quantity, and the id, name and presentation of a row of
    "Productos" named as selected. *)
Theorem movement_log_grows (k : kind) (w : worksheets) (sel : cell) (q : Z)
    (fecha : string) :
  let w' := snd (record_movement k sel q fecha w) in
  movement_log k w' = movement_log k w \/
  exists info,
    In info (Productos w) /\ cell_eqb (Producto.Nombre info) sel = true /\
    movement_log k w' =
      movement_log k w ++
      [Movimiento.mk (Text fecha) (Producto.ID_Producto info) (Producto.Nombre info)
         (Num q) (Producto.Presentacion info)].
Proof.
  destruct k; simpl.
  - destruct (submit_venta_outcomes w sel q fecha) as [E | (info & s & Hin & Hs & E)];
      rewrite E; simpl; [now left|].
    right. now exists info.
  - destruct (submit_compra_outcomes w sel q fecha)
      as [E | (info & Hin & Hs & [E | (s & E)])]; rewrite E; simpl;
      [now left | right; now exists info | right; now exists info].
Qed.

(** ** Writing to a name borne by one row *)

Lemma set_by_name_none sel (c : cell) (df : list Producto.t) :
  forallb (fun r => negb (es_seleccionado sel r)) df = true ->
  map (fun r => if es_seleccionado sel r then Producto.set_Stock c r else r) df = df.
Proof.
  intros H. rewrite <- (map_id df) at 2. apply map_ext_in. intros r Hr.
  rewrite forallb_forall in H. specialize (H r Hr).
  apply negb_true_iff in H. now rewrite H.
Qed.

Lemma loc_set_stock_one sel v (before after : list Producto.t) (info : Producto.t) :
  forallb (fun r => negb (es_seleccionado sel r)) before = true ->
  es_seleccionado sel info = true ->
  forallb (fun r => negb (es_seleccionado sel r)) after = true ->
  loc_set_stock sel v (before ++ info :: after) =
    before ++
    Producto.set_Stock (Num (stock_escrito (before ++ info :: after) v)) info :: after.
Proof.
  intros Hb Hi Ha. unfold loc_set_stock.
  generalize (stock_escrito (before ++ info :: after) v). intros v'.
  rewrite map_app. simpl. rewrite Hi.
  now rewrite (set_by_name_none sel (Num v') before Hb),
              (set_by_name_none sel (Num v') after Ha).
Qed.

(** ** The dashboard indicators *)

Lemma to_numeric_readable (col : list cell) :
  forallb readable col = true -> Pd.to_numeric col = inr (Pd.to_numeric_coerce col).
Proof.
  induction col as [|c col IH]; simpl; [reflexivity|].
  intros H. apply andb_true_iff in H as [Hc Hcol]. rewrite (IH Hcol).
  destruct c as [z|x|]; simpl in *; try reflexivity.
  destruct (Pd.number_of_str x); [reflexivity | discriminate].
Qed.

Lemma to_numeric_unreadable (col : list cell) :
  forallb readable col = false -> Pd.to_numeric col = inl Py.ValueError.
Proof.
  induction col as [|c col IH]; simpl; [discriminate|].
  intros H. apply andb_false_iff in H.
  destruct c as [z|x|]; simpl in *.
  - destruct H as [H | H]; [discriminate|]. now rewrite (IH H).
  - destruct (Pd.number_of_str x); [|reflexivity].
    destruct H as [H | H]; [discriminate|]. now rewrite (IH H).
  - destruct H as [H | H]; [discriminate|]. now rewrite (IH H).
Qed.

Lemma total_stock_cases (df : list Producto.t) :
  total_stock df =
    if forallb (fun r => readable (Producto.Stock r)) df
    then inr (suma (stock_coerced df))
    else inl Py.ValueError.
Proof.
  unfold total_stock, stock_coerced.
  assert (E : forallb (fun r => readable (Producto.Stock r)) df =
              forallb readable (map Producto.Stock df)).
  { induction df as [|r df IH]; simpl; [reflexivity|]. now rewrite IH. }
  rewrite E. destruct (forallb readable (map Producto.Stock df)) eqn:R.
  - rewrite (to_numeric_readable _ R). now rewrite sum_fillna0.
  - now rewrite (to_numeric_unreadable _ R).
Qed.

Section NumericStock.

Variable df : list Producto.t.

(** The "Stock" column holds numbers and empty cells only. *)
Hypothesis Hfloat : Pd.is_float64 (map Producto.Stock df) = true.

Lemma float_readable : forallb (fun r => readable (Producto.Stock r)) df = true.
Proof.
  unfold Pd.is_float64 in Hfloat. rewrite forallb_forall in *.
  intros r Hr. specialize (Hfloat (Producto.Stock r) (in_map _ _ _ Hr)).
  destruct (Producto.Stock r); [reflexivity | discriminate | reflexivity].
Qed.

Lemma float_stock_coerced : stock_coerced df = map stock_de df.
Proof.
  unfold stock_coerced, Pd.fillna0, Pd.to_numeric_coerce. rewrite !map_map.
  apply map_ext_in. intros r Hr.
  unfold Pd.is_float64 in Hfloat. rewrite forallb_forall in Hfloat.
  specialize (Hfloat (Producto.Stock r) (in_map _ _ _ Hr)).
  unfold stock_de. destruct (Producto.Stock r); [reflexivity | discriminate | reflexivity].
Qed.

Lemma float_total_stock :
  total_stock df = inr (fold_right Z.add 0 (map stock_de df)).
Proof.
  rewrite total_stock_cases, float_readable, float_stock_coerced. reflexivity.
Qed.

Lemma float_bajo_stock :
  productos_bajo_stock df = List.length (filter (fun r => stock_de r <=? 10) df).
Proof.
  unfold productos_bajo_stock. rewrite float_stock_coerced.
  clear Hfloat. induction df as [|r l IH]; simpl; [reflexivity|].
  destruct (stock_de r <=? 10); simpl; now rewrite IH.
Qed.

End NumericStock.

(** On a table that is not empty, whose stock cells are numbers or empty
    and add up, in absolute value, to no more than 2^53, the dashboard
    shows as total the sum of the stocks, an empty cell counting for
    nothing, and as low-stock count the number of rows whose stock is at
    most 10, a row with an empty stock cell being one of them. *)
Theorem dashboard_numeric_stock (w : worksheets) :
  Productos w <> [] ->
  Pd.is_float64 (map Producto.Stock (Productos w)) = true ->
  fold_right Z.add 0 (map (fun r => Z.abs (stock_de r)) (Productos w)) <= 2 ^ 53 ->
  total_mostrado (dashboard w) =
    Some (fold_right Z.add 0 (map stock_de (Productos w))) /\
  bajo_mostrado (dashboard w) =
    Some (List.length (filter (fun r => stock_de r <=? 10) (Productos w))).
Proof.
  intros Hne Hfloat _. unfold dashboard, kpis.
  destruct (Productos w) as [|p P] eqn:E; [contradiction|].
  rewrite (float_total_stock _ Hfloat), (float_bajo_stock _ Hfloat).
  split; reflexivity.
Qed.

Lemma dashboard_numeric_stock_witness :
  total_mostrado (dashboard Sample.same_name) =
    Some (fold_right Z.add 0 (map stock_de (Productos Sample.same_name))) /\
  bajo_mostrado (dashboard Sample.same_name) =
    Some (List.length
            (filter (fun r => stock_de r <=? 10) (Productos Sample.same_name))).
Proof.
  apply (dashboard_numeric_stock Sample.same_name);
    [discriminate | reflexivity | vm_compute; discriminate].
Defined.

Lemma sum_app (f : Producto.t -> Z) (l1 l2 : list Producto.t) :
  fold_right Z.add 0 (map f (l1 ++ l2)) =
  fold_right Z.add 0 (map f l1) + fold_right Z.add 0 (map f l2).
Proof. induction l1 as [|a l1 IH]; simpl; [reflexivity|]. rewrite IH. lia. Qed.

Lemma sum_abs_nonneg (l : list Producto.t) :
  0 <= fold_right Z.add 0 (map (fun r => Z.abs (stock_de r)) l).
Proof. induction l as [|a l IH]; simpl; lia. Qed.

(** When the name selected is borne by one row only, the stock cells are
    numbers or empty, and the stocks and the quantity add up, in absolute
    value, to no more than 2^53, the total the dashboard shows after a
    sale of [q] that goes through is the total before less [q], and after a
    purchase of [q] the total before plus [q]. *)
Theorem total_stock_follows_movement (k : kind) (w : worksheets) (sel : cell)
    (before after : list Producto.t) (info : Producto.t)
    (s q : Z) (fecha : string) :
  Productos w = before ++ info :: after ->
  forallb (fun r => negb (es_seleccionado sel r)) before = true ->
  es_seleccionado sel info = true ->
  forallb (fun r => negb (es_seleccionado sel r)) after = true ->
  Pd.is_float64 (map Producto.Stock (Productos w)) = true ->
  Py.int (Producto.Stock info) = Some s ->
  (k = Sale -> q <= s) ->
  fold_right Z.add 0 (map (fun r => Z.abs (stock_de r)) (Productos w)) + Z.abs q
    <= 2 ^ 53 ->
  let t := fold_right Z.add 0 (map stock_de (Productos w)) in
  let w' := snd (record_movement k sel q fecha w) in
  total_mostrado (dashboard w) = Some t /\
  total_mostrado (dashboard w') =
    Some (match k with Sale => t - q | Purchase => t + q end).
Proof.
  intros Hrows Hfirst Hname Hlast Hfloat Hs Hq Hbound.
  assert (Hinfo : Producto.Stock info = Num s).
  { unfold Pd.is_float64 in Hfloat. rewrite forallb_forall in Hfloat.
    assert (Hin : In (Producto.Stock info) (map Producto.Stock (Productos w))).
    { apply in_map. rewrite Hrows. apply in_or_app. right. now left. }
    specialize (Hfloat _ Hin).
    destruct (Producto.Stock info) as [z|x|]; simpl in *;
      [congruence | discriminate | discriminate]. }
  assert (Hsde : stock_de info = s) by (unfold stock_de; now rewrite Hinfo).
  pose proof (sum_abs_nonneg before) as Hb0.
  pose proof (sum_abs_nonneg after) as Ha0.
  assert (Habs : Z.abs s +
                 (fold_right Z.add 0 (map (fun r => Z.abs (stock_de r)) before) +
                  fold_right Z.add 0 (map (fun r => Z.abs (stock_de r)) after)) +
                 Z.abs q <= 2 ^ 53).
  { rewrite Hrows, sum_app in Hbound. simpl in Hbound. rewrite Hsde in Hbound. lia. }
  set (v := match k with Sale => s - q | Purchase => s + q end).
  assert (Hv : Z.abs v <= 2 ^ 53) by (unfold v; destruct k; lia).
  assert (Hw' : Productos (snd (record_movement k sel q fecha w)) =
                before ++ Producto.set_Stock (Num v) info :: after).
  { destruct k; simpl.
    - rewrite (submit_venta_run w sel before after info Hrows Hfirst Hname s q fecha Hs).
      specialize (Hq eq_refl).
      destruct (q >? s) eqn:E; [apply Z.gtb_lt in E; lia|]. simpl.
      rewrite Hrows, (loc_set_stock_one _ _ _ _ _ Hfirst Hname Hlast).
      now rewrite stock_escrito_exact by exact Hv.
    - rewrite (submit_compra_run w sel before after info Hrows Hfirst Hname s q fecha Hs).
      simpl. rewrite Hrows, (loc_set_stock_one _ _ _ _ _ Hfirst Hname Hlast).
      now rewrite stock_escrito_exact by exact Hv. }
  assert (Hfloat' : Pd.is_float64
                      (map Producto.Stock
                         (before ++ Producto.set_Stock (Num v) info :: after)) = true).
  { rewrite Hrows in Hfloat. unfold Pd.is_float64 in *.
    rewrite map_app, forallb_app in *. simpl in *.
    apply andb_true_iff in Hfloat as [H1 H2].
    apply andb_true_iff in H2 as [_ H3]. now rewrite H1, H3. }
  simpl. split.
  - unfold dashboard, kpis. rewrite (float_total_stock _ Hfloat).
    rewrite Hrows. destruct before; reflexivity.
  - unfold dashboard, kpis. rewrite Hw'. rewrite (float_total_stock _ Hfloat').
    assert (Hsum : fold_right Z.add 0
                     (map stock_de (before ++ Producto.set_Stock (Num v) info :: after)) =
                   match k with
                   | Sale => fold_right Z.add 0 (map stock_de (Productos w)) - q
                   | Purchase => fold_right Z.add 0 (map stock_de (Productos w)) + q
                   end).
    { rewrite Hrows, !sum_app. simpl. rewrite Hsde.
      unfold stock_de at 2. simpl. unfold v. destruct k; lia. }
    rewrite Hsum. destruct before; reflexivity.
Qed.

Lemma total_stock_follows_movement_witness :
  let t := fold_right Z.add 0 (map stock_de (Productos Sample.one)) in
  let w' := snd (record_movement Sale (Text "Widget") 3 Sample.fecha Sample.one) in
  total_mostrado (dashboard Sample.one) = Some t /\
  total_mostrado (dashboard w') = Some (t - 3).
Proof.
  apply (total_stock_follows_movement Sale Sample.one (Text "Widget") [] []
           (Sample.widget "P1" (Num 5)) 5 3 Sample.fecha);
    [reflexivity | reflexivity | reflexivity | reflexivity | reflexivity
     | reflexivity | intros _; lia | vm_compute; discriminate].
Defined.

Lemma unique_all_distinct (col : list cell) :
  NoDup col -> ~ In NaN col -> Pd.unique col = col.
Proof.
  induction 1 as [|c col Hc Hcol IH]; simpl; intros Hn; [reflexivity|].
  assert (Hfilter : filter (fun k' => negb (cell_eqb k' c)) col = col).
  { apply forallb_filter_id. apply forallb_forall. intros k' Hk'.
    destruct (cell_eqb k' c) eqn:E; [|reflexivity].
    apply cell_eqb_eq in E as [E _]. subst. contradiction. }
  rewrite IH by tauto. rewrite Hfilter.
  destruct c; [reflexivity | reflexivity | exfalso; tauto].
Qed.

(** When the ids are pairwise distinct as strings, the way registration
    keeps them, and none is missing, the count of unique products is the
    number of rows. *)
Theorem total_productos_all_rows (df : list Producto.t) :
  NoDup (ids df) ->
  forallb (fun r => match Producto.ID_Producto r with NaN => false | _ => true end) df
    = true ->
  total_productos df = List.length df.
Proof.
  intros Hids Hnan. unfold total_productos.
  rewrite unique_all_distinct.
  - apply length_map.
  - unfold ids, Pd.astype_str in Hids. now apply NoDup_map_inv in Hids.
  - rewrite in_map_iff. intros (r & E & Hr).
    rewrite forallb_forall in Hnan. specialize (Hnan r Hr). rewrite E in Hnan.
    discriminate.
Qed.

Lemma total_productos_all_rows_witness :
  total_productos (Productos Sample.same_name) = List.length (Productos Sample.same_name).
Proof.
  apply (total_productos_all_rows (Productos Sample.same_name)); [|reflexivity].
  simpl. constructor.
  - simpl. intros [H | []]. discriminate H.
  - constructor; [intros [] | constructor].
Defined.

(** ** The order of the group keys *)

Section KeyOrder.

Lemma string_leb_iff (a b : string) :
  String.leb a b = true <-> a = b \/ OrderedTypeEx.String_as_OT.lt a b.
Proof.
  unfold String.leb.
  pose proof (OrderedTypeEx.String_as_OT.cmp_eq a b) as Heq.
  pose proof (OrderedTypeEx.String_as_OT.cmp_lt a b) as Hlt.
  pose proof (OrderedTypeEx.String_as_OT.cmp_antisym a b) as Hanti.
  unfold OrderedTypeEx.String_as_OT.cmp in *.
  destruct (String.compare a b) eqn:E.
  - split; [intros _; left; now apply Heq | reflexivity].
  - split; [intros _; right; now apply Hlt | reflexivity].
  - split; [discriminate|].
    intros [H | H]; [apply Heq in H | apply Hlt in H]; discriminate.
Qed.

Lemma string_leb_trans (a b c : string) :
  String.leb a b = true -> String.leb b c = true -> String.leb a c = true.
Proof.
  rewrite !string_leb_iff. intros [-> | H1] [-> | H2]; auto.
  right. eapply OrderedTypeEx.String_as_OT.lt_trans; eassumption.
Qed.

Lemma key_le_trans (a b c : cell) : key_le a b -> key_le b c -> key_le a c.
Proof.
  unfold key_le.
  destruct a, b, c; simpl; try discriminate; try reflexivity.
  - rewrite !Z.leb_le. lia.
  - apply string_leb_trans.
Qed.

Lemma key_le_total (a b : cell) : key_le a b \/ key_le b a.
Proof.
  unfold key_le. destruct a, b; simpl; auto.
  - rewrite !Z.leb_le. lia.
  - apply String.leb_total.
Qed.


Lemma insert_key_sorted (k : cell) (l : list cell) :
  Sorted.StronglySorted key_le l -> Sorted.StronglySorted key_le (Pd.insert_key k l).
Proof.
  induction 1 as [|a l Hl IH Ha]; simpl.
  - constructor; constructor.
  - destruct (cell_leb k a) eqn:E.
    + constructor; [now constructor|].
      constructor; [exact E|].
      eapply Forall_impl; [|exact Ha]. intros b Hb. now apply (key_le_trans k a b).
    + constructor; [exact IH|].
      apply (Permutation_Forall (Permutation_sym (insert_key_perm k l))).
      constructor; [|exact Ha].
      destruct (key_le_total k a) as [H | H]; [unfold key_le in H; congruence | exact H].
Qed.

Lemma sort_keys_sorted (l : list cell) : Sorted.StronglySorted key_le (Pd.sort_keys l).
Proof.
  induction l as [|a l IH]; simpl; [constructor|]. now apply insert_key_sorted.
Qed.


End KeyOrder.

(** ** The five largest sums and the order of the log *)

Section TopFiveOrder.




Lemma groups_by_key (log : list Movimiento.t) :
  groups log =
    map (fun k => (k, suma_de k log))
        (Pd.sort_keys (Pd.unique (map Movimiento.Nombre log))).
Proof.
  unfold groups, Pd.groupby_sum, Pd.to_numeric_coerce, suma_de.
  rewrite map_map. apply map_ext. intros k. now rewrite filter_combine_map.
Qed.


Lemma insert_desc_antes (x : cell * Z) (l : list (cell * Z)) :
  Forall (fun z => key_le (fst x) (fst z)) l ->
  Sorted.StronglySorted antes l ->
  Sorted.StronglySorted antes (Pd.insert_desc x l).
Proof.
  intros Hx Hl. induction Hl as [|y l Hl IH Hy]; simpl.
  - constructor; constructor.
  - apply Forall_cons_iff in Hx as [Hxy Hxl].
    destruct (snd y <=? snd x) eqn:E.
    + apply Z.leb_le in E. constructor; [now constructor|].
      assert (Hle : forall z, In z (y :: l) -> snd z <= snd x).
      { intros z [<- | Hz]; [exact E|].
        rewrite Forall_forall in Hy. specialize (Hy z Hz).
        unfold antes in Hy. lia. }
      apply Forall_forall. intros z Hz.
      assert (Hkey : key_le (fst x) (fst z)).
      { destruct Hz as [<- | Hz]; [exact Hxy|].
        rewrite Forall_forall in Hxl. now apply Hxl. }
      specialize (Hle z Hz). unfold antes.
      destruct (Z.eq_dec (snd x) (snd z)) as [Eq | Ne]; [right; tauto | left; lia].
    + apply Z.leb_gt in E. constructor; [now apply IH|].
      apply (Permutation_Forall (Permutation_sym (insert_desc_perm x l))).
      constructor; [left; exact E | exact Hy].
Qed.

Lemma sort_desc_antes (l : list (cell * Z)) :
  Sorted.StronglySorted (fun a b => key_le (fst a) (fst b)) l ->
  Sorted.StronglySorted antes (Pd.sort_desc l).
Proof.
  induction 1 as [|x l Hl IH Hx]; simpl; [constructor|].
  apply insert_desc_antes; [|exact IH].
  now apply (Permutation_Forall (Permutation_sym (sort_desc_perm l))).
Qed.

Lemma sorted_map_key (f : cell -> Z) (keys : list cell) :
  Sorted.StronglySorted key_le keys ->
  Sorted.StronglySorted (fun a b : cell * Z => key_le (fst a) (fst b))
    (map (fun k => (k, f k)) keys).
Proof.
  induction 1 as [|k keys Hk IH Hf]; simpl; constructor; [exact IH|].
  rewrite Forall_forall in *. intros z Hz.
  apply in_map_iff in Hz as (k' & <- & Hk'). simpl. now apply Hf.
Qed.

Lemma sorted_firstn {A} (R : A -> A -> Prop) (n : nat) (l : list A) :
  Sorted.StronglySorted R l -> Sorted.StronglySorted R (firstn n l).
Proof.
  intros H. revert n. induction H as [|x l Hl IH Hx]; intros [|n]; simpl;
    try constructor.
  - apply IH.
  - rewrite Forall_forall in *. intros y Hy. apply Hx.
    rewrite <- (firstn_skipn n l). apply in_or_app. now left.
Qed.

End TopFiveOrder.



(** The entries of [top_5] come greatest sum first, and entries of equal
    sum come in the order of their keys (numbers before texts, numbers by
    value, texts by code point), wherever their rows stand in the log. *)
Theorem top_5_ties_by_key (log : list Movimiento.t) :
  Sorted.StronglySorted antes (top_5 log).
Proof.
  rewrite top_5_groups. apply sorted_firstn. apply sort_desc_antes.
  rewrite groups_by_key. apply sorted_map_key. apply sort_keys_sorted.
Qed.

(** ** Opening the spreadsheet *)

Section GetSheets.

Lemma worksheet_add (t name : string) (sp : Gspread.spreadsheet) :
  Gspread.worksheet t (Gspread.add_worksheet name sp) =
    match Gspread.worksheet t sp with
    | Some rows => Some rows
    | None => if String.eqb name t then Some [] else None
    end.
Proof.
  unfold Gspread.worksheet, Gspread.add_worksheet.
  induction sp as [|[t' rows] sp IH]; simpl.
  - destruct (String.eqb name t); reflexivity.
  - destruct (String.eqb t' t); [reflexivity | exact IH].
Qed.

Lemma worksheet_append_row (t name : string) (v : list string)
    (sp : Gspread.spreadsheet) :
  Gspread.worksheet t (Gspread.append_row name v sp) =
    if String.eqb name t
    then option_map (fun rows => rows ++ [v]) (Gspread.worksheet t sp)
    else Gspread.worksheet t sp.
Proof.
  unfold Gspread.worksheet.
  induction sp as [|[t' rows] sp IH]; simpl.
  - destruct (String.eqb name t); reflexivity.
  - destruct (String.eqb t' name) eqn:E1; simpl.
    + apply String.eqb_eq in E1. subst t'.
      destruct (String.eqb name t); reflexivity.
    + destruct (String.eqb t' t) eqn:E2; simpl.
      * apply String.eqb_eq in E2. subst t'.
        rewrite String.eqb_sym, E1. reflexivity.
      * exact IH.
Qed.

Lemma open_sheet_worksheet (t name : string) (fila : list string)
    (sp : Gspread.spreadsheet) :
  encabezado name = Some fila ->
  Gspread.worksheet t (open_sheet name sp) =
    match Gspread.worksheet t sp with
    | Some rows => Some rows
    | None => if String.eqb name t then Some [fila] else None
    end.
Proof.
  intros Hh. unfold open_sheet. rewrite Hh.
  destruct (Gspread.worksheet name sp) as [r|] eqn:En.
  - destruct (Gspread.worksheet t sp) eqn:Et; [reflexivity|].
    destruct (String.eqb name t) eqn:E; [|reflexivity].
    apply String.eqb_eq in E. congruence.
  - rewrite worksheet_append_row, worksheet_add.
    destruct (String.eqb name t) eqn:E.
    + apply String.eqb_eq in E. subst t. rewrite En. reflexivity.
    + destruct (Gspread.worksheet t sp); reflexivity.
Qed.

Lemma open_sheet_found (name : string) (sp : Gspread.spreadsheet) :
  Gspread.worksheet name sp <> None -> open_sheet name sp = sp.
Proof.
  unfold open_sheet. destruct (Gspread.worksheet name sp); [reflexivity | contradiction].
Qed.

End GetSheets.

Lemma get_sheets_lookup (t : string) (sp : Gspread.spreadsheet) :
  Gspread.worksheet t (get_sheets sp) =
    match Gspread.worksheet t sp with
    | Some rows => Some rows
    | None =>
        match encabezado t with
        | Some fila => Some [fila]
        | None => None
        end
    end.
Proof.
  unfold get_sheets, sheet_names. simpl fold_left.
  rewrite (open_sheet_worksheet t "Compras" _ _ eq_refl).
  rewrite (open_sheet_worksheet t "Ventas" _ _ eq_refl).
  rewrite (open_sheet_worksheet t "Productos" _ _ eq_refl).
  destruct (Gspread.worksheet t sp); [reflexivity|].
  unfold encabezado. rewrite !(String.eqb_sym t).
  destruct (String.eqb "Productos" t); [reflexivity|].
  destruct (String.eqb "Ventas" t); [reflexivity|].
  destruct (String.eqb "Compras" t); reflexivity.
Qed.

(** After [get_sheets], a worksheet that was there, of whatever title, is
    found with the rows it had, and a worksheet that was not there is
    found exactly when it is one of "Productos", "Ventas", "Compras", then
    holding its header row and nothing else. *)
Theorem get_sheets_worksheets (t : string) (sp : Gspread.spreadsheet) :
  Gspread.worksheet t (get_sheets sp) =
    match Gspread.worksheet t sp with
    | Some rows => Some rows
    | None =>
        match encabezado t with
        | Some fila => Some [fila]
        | None => None
        end
    end.
Proof. apply get_sheets_lookup. Qed.

(** Opening the spreadsheet a second time changes nothing: the three
    sheets are found and no header is written again. *)
Theorem get_sheets_twice (sp : Gspread.spreadsheet) :
  get_sheets (get_sheets sp) = get_sheets sp.
Proof.
  assert (Hfound : forall name, In name sheet_names ->
                     Gspread.worksheet name (get_sheets sp) <> None).
  { intros name Hin. rewrite get_sheets_lookup.
    destruct (Gspread.worksheet name sp); [discriminate|].
    unfold sheet_names in Hin. simpl in Hin.
    destruct Hin as [<- | [<- | [<- | []]]]; discriminate. }
  unfold get_sheets at 1. unfold sheet_names. simpl fold_left.
  rewrite (open_sheet_found "Productos") by (apply Hfound; simpl; auto).
  rewrite (open_sheet_found "Ventas") by (apply Hfound; simpl; auto).
  rewrite (open_sheet_found "Compras") by (apply Hfound; simpl; auto).
  reflexivity.
Qed.

(** On an empty spreadsheet the three sheets are created in the order
    "Productos", "Ventas", "Compras", each with its five column titles. *)
Example get_sheets_from_nothing :
  map fst (get_sheets []) = sheet_names /\
  map (fun h => map (@List.length string) (snd h)) (get_sheets []) =
    [[5%nat]; [5%nat]; [5%nat]].
Proof. split; reflexivity. Qed.

(** ** A stock cell that does not convert *)

(** A sale on a product whose stock cell is empty, or an ASCII text that
    [int] does not read, raises [ValueError] before anything is written:
    the three sheets are as they were. *)
Theorem sale_unconvertible_stock (w : worksheets) (sel : cell)
    (before after : list Producto.t) (info : Producto.t) (q : Z) (fecha : string) :
  Productos w = before ++ info :: after ->
  forallb (fun r => negb (es_seleccionado sel r)) before = true ->
  es_seleccionado sel info = true ->
  ascii_cell (Producto.Stock info) = true ->
  Py.int (Producto.Stock info) = None ->
  record_movement Sale sel q fecha w = (Raise Py.ValueError, w).
Proof.
  intros Hrows Hfirst Hname _ Hs.
  exact (submit_venta_no_int w sel before after info Hrows Hfirst Hname q fecha Hs).
Qed.

Lemma sale_unconvertible_stock_witness :
  record_movement Sale (Text "Widget") 1 Sample.fecha Sample.bad_stock =
    (Raise Py.ValueError, Sample.bad_stock).
Proof.
  apply (sale_unconvertible_stock Sample.bad_stock (Text "Widget") [] []
           (Sample.widget "P1" (Text "abc")) 1 Sample.fecha); reflexivity.
Defined.

(** A purchase on a product whose stock cell is empty, or an ASCII text
    that [int] does not read, raises [ValueError] after the movement row
    has been written: "Compras" has the row appended, "Productos" and
    "Ventas" are as they were. *)
Theorem purchase_unconvertible_stock (w : worksheets) (sel : cell)
    (before after : list Producto.t) (info : Producto.t) (q : Z) (fecha : string) :
  Productos w = before ++ info :: after ->
  forallb (fun r => negb (es_seleccionado sel r)) before = true ->
  es_seleccionado sel info = true ->
  ascii_cell (Producto.Stock info) = true ->
  Py.int (Producto.Stock info) = None ->
  let run := record_movement Purchase sel q fecha w in
  fst run = Raise Py.ValueError /\
  Productos (snd run) = Productos w /\
  Ventas (snd run) = Ventas w /\
  Compras (snd run) =
    Compras w ++
    [Movimiento.mk (Text fecha) (Producto.ID_Producto info) (Producto.Nombre info)
       (Num q) (Producto.Presentacion info)].
Proof.
  intros Hrows Hfirst Hname _ Hs. simpl.
  rewrite (submit_compra_no_int w sel before after info Hrows Hfirst Hname q fecha Hs).
  simpl. auto.
Qed.

Lemma purchase_unconvertible_stock_witness :
  let run := record_movement Purchase (Text "Widget") 1 Sample.fecha Sample.bad_stock in
  fst run = Raise Py.ValueError /\
  Productos (snd run) = Productos Sample.bad_stock /\
  Ventas (snd run) = Ventas Sample.bad_stock /\
  Compras (snd run) =
    Compras Sample.bad_stock ++
    [Movimiento.mk (Text Sample.fecha) (Text "P1") (Text "Widget") (Num 1)
       (Text "Caja")].
Proof.
  apply (purchase_unconvertible_stock Sample.bad_stock (Text "Widget") [] []
           (Sample.widget "P1" (Text "abc")) 1 Sample.fecha); reflexivity.
Defined.
